(** * TEMPer: a polling monitor for a USB HID thermometer

    Shallow embedding of [TEMPer.py] and the properties of its frame
    decoder, device locator, protocol exchange and supervisor loop.

    Conventions of the embedding
    - bytes are [Byte.byte]; a report is a [list byte] (the HID binding
      hands out Python lists of integers in 0..255);
    - Python floats are the binary64 numbers of [PrimFloat];
    - the HID binding and [time.sleep] are the environment: every call to
      them is a node of a program tree ([prog]) that an environment
      ([env]) answers with a value or with a raised exception;
    - [time.sleep(s)] is written [sleep ms] with [ms] the same duration in
      milliseconds ([time.sleep(0.1)] is [sleep 100]);
    - [print] never raises; the printed lines are kept as data ([line]);
    - an interrupt (Ctrl-C) reaches the program as a [KeyboardInterrupt]
      raised by a call to the HID binding or by a sleep. *)

From Stdlib Require Import ZArith NArith List Bool Lia.
From Stdlib.Strings Require Import String Ascii Byte.
From Stdlib Require Import Floats Uint63 DecimalString QArith.
Import ListNotations.

Local Open Scope string_scope.
Local Open Scope list_scope.
Local Open Scope Z_scope.

(** ** Module constants (lines 8-14) *)

Definition VENDOR_ID : Z := 0x0C45.
Definition PRODUCT_ID : Z := 0x7401.
Definition USAGE_PAGE_SENSOR : Z := 0xFF00.
Definition USAGE_SENSOR : Z := 0x01.

Definition SCALE : float := 1.0%float.
Definition OFFSET : float := 0.0%float.

(** ** Exceptions and results *)

(** The exception classes the program distinguishes.  [OSError] is also
    Python 3's [IOError]; [OtherException] stands for any further subclass
    of [Exception] (for instance [struct.error]); [KeyboardInterrupt] is
    the one class here that is not a subclass of [Exception]. *)
Inductive exn : Type :=
| OSError (msg : string)
| ValueError (msg : string)
| OtherException (msg : string)
| KeyboardInterrupt.

Definition is_OSError (e : exn) : bool :=
  match e with OSError _ => true | _ => false end.

Definition is_Exception (e : exn) : bool :=
  match e with KeyboardInterrupt => false | _ => true end.

Inductive result (A : Type) : Type :=
| Returns (a : A)
| Raises (e : exn).
Arguments Returns {A} a.
Arguments Raises {A} e.

(** ** Python values: integers, lists of bytes, floats *)

Definition byte_val (b : byte) : Z := Z.of_N (Byte.to_N b).

(** [l[i:j]] for [0 <= i <= j]. *)
Definition slice {A : Type} (i j : nat) (l : list A) : list A :=
  firstn (j - i) (skipn i l).

(** [str(n)] for an integer. *)
Definition str_int (z : Z) : string :=
  NilZero.string_of_int (Z.to_int z).

(** [repr] of a list of integers: [[1, 2, 3]]. *)
Fixpoint repr_items (l : list byte) : string :=
  match l with
  | [] => ""
  | [b] => str_int (byte_val b)
  | b :: rest => str_int (byte_val b) ++ ", " ++ repr_items rest
  end.

Definition repr_list (l : list byte) : string :=
  "[" ++ repr_items l ++ "]".

(** Conversion of a Python integer to a float, as the true division
    [int / float] does before dividing.  Exact below 2^53 in absolute
    value; the integers converted here are 16-bit. *)
Definition float_of_int (z : Z) : float :=
  if z <? 0 then PrimFloat.opp (PrimFloat.of_uint63 (Uint63.of_Z (- z)))
  else PrimFloat.of_uint63 (Uint63.of_Z z).

(** [struct.unpack(">h", b)[0]]: two bytes, most significant first, read
    as a two's complement 16-bit integer; any other length is a
    [struct.error]. *)
Definition unpack_be_h (b : list byte) : result Z :=
  match b with
  | [hi; lo] =>
      let x := Z.lor (Z.shiftl (byte_val hi) 8) (byte_val lo) in
      Returns (Z.lxor x 0x8000 - 0x8000)
  | _ => Raises (OtherException "unpack requires a buffer of 2 bytes")
  end.

(** ** decode_temp_from_report (lines 33-45) *)

Definition decode_temp_from_report (data : list byte) : result float :=
  if (List.length data <? 4)%nat then
    Raises (ValueError ("Antwort zu kurz: " ++ repr_list data))
  else
    match unpack_be_h (slice 2 4 data) with
    | Raises e => Raises e
    | Returns temp_raw =>
        let celsius := (float_of_int temp_raw / 256)%float in
        let celsius := (celsius * SCALE + OFFSET)%float in
        Returns celsius
    end.

(** ** Formatting of floats: the [.2f] and [6.2f] presentation types

    Python prints the decimal nearest to the exact binary value, ties to
    even. *)

(** The integer nearest to [100 * m * 2^e], ties to even. *)
Definition round_hundredths (m e : Z) : Z :=
  if 0 <=? e then m * 2 ^ e * 100
  else
    let d := 2 ^ (- e) in
    let q := (m * 100) / d in
    let r := (m * 100) mod d in
    if 2 * r <? d then q
    else if d <? 2 * r then q + 1
    else if Z.even q then q else q + 1.

Definition two_digits (z : Z) : string :=
  String.append (if z <? 10 then "0" else "") (str_int z).

Definition format_2f (x : float) : string :=
  match Prim2SF x with
  | S754_nan => "nan"
  | S754_infinity s => if s then "-inf" else "inf"
  | S754_zero s => if s then "-0.00" else "0.00"
  | S754_finite s m e =>
      let h := round_hundredths (Z.pos m) e in
      ((if s then "-" else "") ++ str_int (h / 100) ++ "." ++ two_digits (h mod 100))%string
  end.

Fixpoint spaces (n : nat) : string :=
  match n with
  | O => ""
  | S n' => String " " (spaces n')
  end.

(** Right-justify in a field of [width] characters. *)
Definition rjust (width : nat) (s : string) : string :=
  (spaces (width - String.length s) ++ s)%string.

Definition format_6_2f (x : float) : string := rjust 6 (format_2f x).

(** ** The HID binding as seen by the program *)

(** One entry of [hid.enumerate]'s result: the keys of the dictionary the
    program reads. *)
Record descriptor : Type := {
  vendor_id : Z;
  product_id : Z;
  usage_page : Z;
  usage : Z;
  path : string
}.

(** An opened [hid.device] object, named by the number the environment
    gives it. *)
Definition handle : Type := nat.

Inductive call : Type -> Type :=
| Enumerate (vid pid : Z) : call (list descriptor)
| OpenPath (p : string) : call handle       (* hid.device() then open_path(p) *)
| SetNonblocking (dev : handle) (b : bool) : call unit
| Write (dev : handle) (buf : list byte) : call Z
| Read (dev : handle) (max_length timeout_ms : Z) : call (list byte)
| Close (dev : handle) : call unit.

(** ** Printed lines *)

Inductive line : Type :=
| InfoUsingDevice (d : descriptor) (* "[INFO] Benutze Device:", d *)
| InfoSearching                    (* "[INFO] Versuche TEMPerV1.4 zu finden ..." *)
| WarnNotFound                     (* "[WARN] Kein TEMPer gefunden. Warte 2s ..." *)
| InfoOpened                       (* "[INFO] Sensor geoeffnet." *)
| Reading (temp_c : float) (raw : list byte)      (* line 91, [reading_text] *)
| Implausible (temp_c : float) (raw : list byte)  (* line 93, [implausible_text] *)
| ErrorRead (e : exn)              (* "[ERROR] Lesefehler: {e}. ..." *)
| ErrorUnexpected (e : exn)        (* "[ERROR] Unerwarteter Fehler: {e}. ..." *)
| InfoClosed                       (* "[INFO] Device geschlossen." *)
| InfoInterrupted.                 (* "[INFO] Beendet durch Benutzer." *)

(** Line 91: the thermometer glyph (U+1F321), two spaces, the value in a
    field of six with two decimals, the unit, the raw report. *)
Definition reading_text (temp_c : float) (raw : list byte) : string :=
  ("🌡  " ++ format_6_2f temp_c ++ " °C   RAW=" ++ repr_list raw)%string.

(** Line 93. *)
Definition implausible_text (temp_c : float) (raw : list byte) : string :=
  ("[WARN] Unplausibler Wert: " ++ format_2f temp_c ++ " °C   RAW=" ++ repr_list raw)%string.

(** ** Programs

    A program is a tree: it returns, raises, calls the HID binding, sleeps,
    prints, or reads or assigns [main]'s local variable [dev].  A call node
    receives what the environment answered, value or exception; a sleep
    node receives whether an interrupt (Ctrl-C) ended it. *)

Inductive prog (A : Type) : Type :=
| Ret (a : A)
| Raise (e : exn)
| Hid {R : Type} (c : call R) (k : result R -> prog A)
| Sleep (ms : Z) (k : bool -> prog A)
| Print (l : line) (k : prog A)
| GetDev (k : option handle -> prog A)
| SetDev (d : option handle) (k : prog A).
Arguments Ret {A} a.
Arguments Raise {A} e.
Arguments Hid {A R} c k.
Arguments Sleep {A} ms k.
Arguments Print {A} l k.
Arguments GetDev {A} k.
Arguments SetDev {A} d k.

Fixpoint bind {A B : Type} (p : prog A) (f : A -> prog B) : prog B :=
  match p with
  | Ret a => f a
  | Raise e => Raise e
  | Hid c k => Hid c (fun r => bind (k r) f)
  | Sleep ms k => Sleep ms (fun i => bind (k i) f)
  | Print l k => Print l (bind k f)
  | GetDev k => GetDev (fun d => bind (k d) f)
  | SetDev d k => SetDev d (bind k f)
  end.

Declare Scope prog_scope.
Delimit Scope prog_scope with prog.
Notation "x <- p ;; q" := (bind p (fun x => q))
  (at level 61, p at next level, right associativity) : prog_scope.
Notation "' pat <- p ;; q" := (bind p (fun x => match x with pat => q end))
  (at level 61, pat pattern, p at next level, right associativity) : prog_scope.
Notation "p ;; q" := (bind p (fun _ => q))
  (at level 61, right associativity) : prog_scope.
Local Open Scope prog_scope.

(** A call whose exception is left to propagate. *)
Definition hid {R : Type} (c : call R) : prog R :=
  Hid c (fun r => match r with Returns v => Ret v | Raises e => Raise e end).

(** [time.sleep]: only an interrupt ends it early. *)
Definition sleep (ms : Z) : prog unit :=
  Sleep ms (fun interrupted => if interrupted then Raise KeyboardInterrupt else Ret tt).

Definition print (l : line) : prog unit := Print l (Ret tt).
Definition get_dev : prog (option handle) := GetDev (fun d => Ret d).
Definition set_dev (d : option handle) : prog unit := SetDev d (Ret tt).

(** A pure computation that may raise. *)
Definition lift {A : Type} (r : result A) : prog A :=
  match r with Returns a => Ret a | Raises e => Raise e end.

(** [try: p  except ...:]  The handler answers [Some q] for an exception
    that one of the clauses matches and [None] for one that none does, which
    then propagates.  An exception raised by the clause itself propagates. *)
Fixpoint try_except {A : Type} (p : prog A) (h : exn -> option (prog A)) : prog A :=
  match p with
  | Ret a => Ret a
  | Raise e => match h e with Some q => q | None => Raise e end
  | Hid c k => Hid c (fun r => try_except (k r) h)
  | Sleep ms k => Sleep ms (fun i => try_except (k i) h)
  | Print l k => Print l (try_except k h)
  | GetDev k => GetDev (fun d => try_except (k d) h)
  | SetDev d k => SetDev d (try_except k h)
  end.

(** ** open_temper (lines 17-30) *)

(** The [for d in devices] loop. *)
Fixpoint open_temper_scan (devices : list descriptor) : prog (option handle) :=
  match devices with
  | [] => Ret None
  | d :: rest =>
      if (usage_page d =? USAGE_PAGE_SENSOR) && (usage d =? USAGE_SENSOR) then
        print (InfoUsingDevice d) ;;
        dev <- hid (OpenPath (path d)) ;;
        hid (SetNonblocking dev false) ;;
        Ret (Some dev)
      else open_temper_scan rest
  end.

Definition open_temper : prog (option handle) :=
  devices <- hid (Enumerate VENDOR_ID PRODUCT_ID) ;;
  open_temper_scan devices.

(** ** read_temperature (lines 48-69) *)

Definition read_temperature (dev : handle) : prog (float * list byte) :=
  let buf := [x00; x01; x80; x33; x01; x00; x00; x00; x00] in
  let buf := (buf ++ repeat x00 (64 - List.length buf)) in
  written <- hid (Write dev buf) ;;
  if written <=? 0 then Raise (OSError "Konnte HID-Report nicht schreiben") else
  sleep 100 ;;
  data <- hid (Read dev 64 1000) ;;
  match data with
  | [] => Raise (OSError "Keine Daten vom Sensor (Timeout)")
  | _ =>
      let data8 := firstn 8 data in
      temp_c <- lift (decode_temp_from_report data8) ;;
      Ret (temp_c, data8)
  end.

(** ** main (lines 72-126) *)

(** Lines 90-93: which line reports a reading. *)
Definition report (temp_c : float) (raw : list byte) : line :=
  if ((-40) <=? temp_c)%float && (temp_c <=? 125)%float
  then Reading temp_c raw
  else Implausible temp_c raw.

(** Lines 99-103, 110-114 and 122-126: [dev.close()] in a [try] whose
    [except Exception: pass] swallows what it raises. *)
Definition close_quietly (dev : handle) : prog unit :=
  try_except
    (hid (Close dev) ;; print InfoClosed)
    (fun e => if is_Exception e then Some (Ret tt) else None).

(** Lines 79-85: one pass through the body of [while dev is None]. *)
Definition connect_step : prog unit :=
  print InfoSearching ;;
  dev <- open_temper ;;
  set_dev dev ;;
  match dev with
  | None => print WarnNotFound ;; sleep 2000
  | Some _ => print InfoOpened
  end.

(** Lines 88-116: the [try] statement of the measuring loop, entered with
    [dev] holding a handle. *)
Definition measure_step (dev : handle) : prog unit :=
  try_except
    ('(temp_c, raw) <- read_temperature dev ;;
     print (report temp_c raw) ;;
     sleep 1000)
    (fun e =>
       if is_OSError e then
         Some (print (ErrorRead e) ;;
               close_quietly dev ;;
               set_dev None ;;
               sleep 1000)
       else if is_Exception e then
         Some (print (ErrorUnexpected e) ;;
               close_quietly dev ;;
               set_dev None ;;
               sleep 2000)
       else None).

(** One turn of [while True]: the inner [while dev is None] loop runs
    [connect_step] as long as [dev] is [None], and the [try] statement runs
    once [dev] holds a handle; so each turn is decided by [dev] alone. *)
Definition loop_body : prog unit :=
  dev <- get_dev ;;
  match dev with
  | None => connect_step
  | Some h => measure_step h
  end.

(** Lines 118-126, entered with the exception [e] that left the loop: the
    [except KeyboardInterrupt] clause, then the [finally] block, then [e]
    again unless the clause caught it. *)
Definition main_exit (e : exn) : prog unit :=
  match e with
  | KeyboardInterrupt => print InfoInterrupted
  | _ => Ret tt
  end ;;
  dev <- get_dev ;;
  match dev with
  | Some h => close_quietly h
  | None => Ret tt
  end ;;
  match e with
  | KeyboardInterrupt => Ret tt
  | _ => Raise e
  end.

(** ** Environments and runs *)

(** The environment answers the call made at position [n] of the run, and
    says whether an interrupt ends the sleep made at position [n]. *)
Record env : Type := {
  answer : forall R : Type, call R -> nat -> result R;
  sigint : nat -> bool
}.

Inductive event : Type :=
| EvHid {R : Type} (c : call R) (r : result R)
| EvSleep (ms : Z) (interrupted : bool)
| EvPrint (l : line).

Definition trace : Type := list event.

Definition emit {A : Type} (ev : event) (x : trace * option handle * result A)
  : trace * option handle * result A :=
  let '(t, d, r) := x in (ev :: t, d, r).

(** [run E p dev n]: the events of [p] started at position [n] with [dev]
    in [main]'s variable, the final value of the variable, and the
    result. *)
Fixpoint run {A : Type} (E : env) (p : prog A) (dev : option handle) (n : nat)
  : trace * option handle * result A :=
  match p with
  | Ret a => ([], dev, Returns a)
  | Raise e => ([], dev, Raises e)
  | Hid c k =>
      let r := answer E _ c n in
      emit (EvHid c r) (run E (k r) dev (S n))
  | Sleep ms k =>
      let i := sigint E n in
      emit (EvSleep ms i) (run E (k i) dev (S n))
  | Print l k => emit (EvPrint l) (run E k dev (S n))
  | GetDev k => run E (k dev) dev n
  | SetDev d k => run E k d n
  end.

(** How [main] stands after some turns of its loop: still looping with
    [dev], or left, by returning or with an exception. *)
Inductive outcome : Type :=
| Looping (dev : option handle)
| Left (r : result unit).

Fixpoint main_loop (E : env) (turns : nat) (dev : option handle) (n : nat)
  : trace * outcome :=
  match turns with
  | O => ([], Looping dev)
  | S turns' =>
      let '(t, dev', r) := run E loop_body dev n in
      match r with
      | Returns _ =>
          let '(t', o) := main_loop E turns' dev' (n + List.length t) in
          ((t ++ t'), o)
      | Raises e =>
          let '(t', _, r') := run E (main_exit e) dev' (n + List.length t) in
          ((t ++ t'), Left r')
      end
  end.

(** [main] run for at most [turns] turns of [while True]. *)
Definition main (E : env) (turns : nat) : trace * outcome :=
  main_loop E turns None 0.

(** ** Sample environments *)

(** The sensor interface of a TEMPerV1.4 and its keyboard interface. *)
Definition sensor : descriptor :=
  {| vendor_id := VENDOR_ID; product_id := PRODUCT_ID;
     usage_page := USAGE_PAGE_SENSOR; usage := USAGE_SENSOR;
     path := "1-1.3:1.1" |}.

Definition keyboard : descriptor :=
  {| vendor_id := VENDOR_ID; product_id := PRODUCT_ID;
     usage_page := 1; usage := 6;
     path := "1-1.3:1.0" |}.

(** A host where every call succeeds: [devices] are enumerated, an open
    gives handle 1, a write takes the whole frame, a read gives [reply]. *)
Definition healthy (devices : list descriptor) (reply : list byte)
  (R : Type) (c : call R) : result R :=
  match c in call R return result R with
  | Enumerate _ _ => Returns devices
  | OpenPath _ => Returns 1%nat
  | SetNonblocking _ _ => Returns tt
  | Write _ buf => Returns (Z.of_nat (List.length buf))
  | Read _ _ _ => Returns reply
  | Close _ => Returns tt
  end.

Definition reply_25 : list byte := [x80; x02; x19; x00; x4e; x20; x00; x00].

Definition env_healthy : env :=
  {| answer := fun R c _ => healthy [keyboard; sensor] reply_25 R c;
     sigint := fun _ => false |}.

(** A sensor that reports 127.0 degrees. *)
Definition reply_127 : list byte := [x80; x02; x7f; x00; x4e; x20; x00; x00].

Definition env_hot : env :=
  {| answer := fun R c _ => healthy [sensor] reply_127 R c;
     sigint := fun _ => false |}.

(** A host whose sensor cannot be opened: [open_path] raises. *)
Definition env_open_fails : env :=
  {| answer := fun R c _ =>
       match c in call R return result R with
       | OpenPath _ => Raises (OSError "open failed")
       | c' => healthy [keyboard; sensor] reply_25 _ c'
       end;
     sigint := fun _ => false |}.

(** A sensor that answers with three bytes only. *)
Definition env_short_reply : env :=
  {| answer := fun R c _ => healthy [sensor] [x80; x02; x19] R c;
     sigint := fun _ => false |}.

(** A sensor that was unplugged: writes take no byte. *)
Definition env_write_fails : env :=
  {| answer := fun R c _ =>
       match c in call R return result R with
       | Write _ _ => Returns (-1)
       | c' => healthy [sensor] reply_25 _ c'
       end;
     sigint := fun _ => false |}.

(** A healthy host where Ctrl-C ends every sleep from position [k] on, and
    where closing the device fails. *)
Definition env_interrupt (k : nat) : env :=
  {| answer := fun R c _ =>
       match c in call R return result R with
       | Close _ => Raises (OSError "close failed")
       | c' => healthy [sensor] reply_25 _ c'
       end;
     sigint := fun n => (k <=? n)%nat |}.

(** No sensor plugged in, Ctrl-C from position [k] on. *)
Definition env_absent_interrupt (k : nat) : env :=
  {| answer := fun R c _ => healthy [keyboard] [] R c;
     sigint := fun n => (k <=? n)%nat |}.

(** A mouse of another vendor, and a second thermometer. *)
Definition mouse : descriptor :=
  {| vendor_id := 0x046D; product_id := 0xC077;
     usage_page := 1; usage := 2;
     path := "1-1.1:1.0" |}.

Definition sensor_b : descriptor :=
  {| vendor_id := VENDOR_ID; product_id := PRODUCT_ID;
     usage_page := USAGE_PAGE_SENSOR; usage := USAGE_SENSOR;
     path := "1-1.4:1.1" |}.

(** ** Vocabulary of the properties *)

(** The integer a big-endian 16-bit two's complement pair of bytes
    denotes. *)
Definition signed_be16 (hi lo : Z) : Z :=
  let u := hi * 256 + lo in
  if u <? 2 ^ 15 then u else u - 2 ^ 16.

(** The rational a finite float is. *)
Definition float_value (x : float) : option Q :=
  match Prim2SF x with
  | S754_zero _ => Some 0%Q
  | S754_finite s m e =>
      let n := if s then Z.neg m else Z.pos m in
      Some (if 0 <=? e then inject_Z (n * 2 ^ e)
            else Qmake n (Z.to_pos (2 ^ (- e))))
  | _ => None
  end.

Definition represents (x : float) (q : Q) : bool :=
  match float_value x with
  | Some v => Qeq_bool v q
  | None => false
  end.

(** The integers [lo], ..., [lo + n - 1]. *)
Fixpoint zrange_from (lo : Z) (n : nat) : list Z :=
  match n with
  | O => []
  | S n' => lo :: zrange_from (lo + 1) n'
  end.

Definition zrange (lo n : Z) : list Z := zrange_from lo (Z.to_nat n).

(** What [hid.enumerate(vid, pid)] hands out of the endpoints [host]
    exposes: those with that vendor and product id, in the host's order
    (an id of 0 matches any). *)
Definition hid_enumerate (host : list descriptor) (vid pid : Z) : list descriptor :=
  filter (fun d => ((vid =? 0) || (vendor_id d =? vid))
                   && ((pid =? 0) || (product_id d =? pid))) host.

(** A healthy host exposing the endpoints [host]. *)
Definition env_of_host (host : list descriptor) : env :=
  {| answer := fun R c _ =>
       match c in call R return result R with
       | Enumerate vid pid => Returns (hid_enumerate host vid pid)
       | c' => healthy [] reply_25 _ c'
       end;
     sigint := fun _ => false |}.

(** The four constants of the target model. *)
Definition is_target (d : descriptor) : bool :=
  (vendor_id d =? VENDOR_ID) && (product_id d =? PRODUCT_ID)
  && (usage_page d =? USAGE_PAGE_SENSOR) && (usage d =? USAGE_SENSOR).

(** The handle a close attempt is made on. *)
Definition close_attempt (ev : event) : option handle :=
  match ev with
  | EvHid c _ =>
      match c with
      | Close h => Some h
      | _ => None
      end
  | _ => None
  end.

(** The handle a successful open hands out. *)
Definition opened (ev : event) : option handle :=
  match ev with
  | EvHid c r =>
      match c in call R return result R -> option handle with
      | OpenPath _ => fun r => match r with Returns h => Some h | Raises _ => None end
      | _ => fun _ => None
      end r
  | _ => None
  end.

Definition closes (t : trace) : nat :=
  List.length (filter (fun ev => match close_attempt ev with Some _ => true | None => false end) t).

(** The handles that are out after [t], given those out before it: an
    open adds its handle, a close attempt takes its handle away. *)
Fixpoint held (hs : list handle) (t : trace) : list handle :=
  match t with
  | [] => hs
  | ev :: t' =>
      let hs1 := match opened ev with Some h => h :: hs | None => hs end in
      let hs2 := match close_attempt ev with
                 | Some h => remove Nat.eq_dec h hs1
                 | None => hs1
                 end in
      held hs2 t'
  end.

(** The durations slept in [t]. *)
Definition sleeps (t : trace) : list Z :=
  flat_map (fun ev => match ev with EvSleep ms _ => [ms] | _ => [] end) t.

(** No Ctrl-C arrives: no sleep is cut short and no call raises
    [KeyboardInterrupt]. *)
Definition no_interrupt (E : env) : Prop :=
  (forall n, sigint E n = false)
  /\ (forall R (c : call R) n, answer E R c n <> Raises KeyboardInterrupt).

(** The variable [dev] as a list of handles. *)
Definition handles_of (dev : option handle) : list handle :=
  match dev with Some h => [h] | None => [] end.

(** The command frame: nine logical bytes, then zeros up to 64. *)
Definition command_frame : list byte :=
  ([x00; x01; x80; x33; x01; x00; x00; x00; x00] ++ repeat x00 55).

(** The two exceptions [read_temperature] raises itself. *)
Definition WriteError : exn := OSError "Konnte HID-Report nicht schreiben".
Definition TimeoutError : exn := OSError "Keine Daten vom Sensor (Timeout)".

(** The descriptors a run announces it uses, and the paths it opens or
    tries to open, in order. *)
Definition announced (t : trace) : list descriptor :=
  flat_map (fun ev => match ev with
                      | EvPrint (InfoUsingDevice d) => [d]
                      | _ => []
                      end) t.

Definition open_paths (t : trace) : list string :=
  flat_map (fun ev => match ev with
                      | EvHid c _ =>
                          match c with
                          | OpenPath p => [p]
                          | _ => []
                          end
                      | _ => []
                      end) t.

Definition option_list {A : Type} (o : option A) : list A :=
  match o with Some a => [a] | None => [] end.

(** The text of the two lines that report a reading. *)
Definition line_text (l : line) : option string :=
  match l with
  | Reading temp_c raw => Some (reading_text temp_c raw)
  | Implausible temp_c raw => Some (implausible_text temp_c raw)
  | _ => None
  end.

(** The plausibility window. *)
Definition plausible (temp_c : float) : bool :=
  ((-40) <=? temp_c)%float && (temp_c <=? 125)%float.

(** The events of one close attempt answered by [rc]: the call, and the
    line that follows a close that returned. *)
Definition close_events (h : handle) (rc : result unit) : trace :=
  EvHid (Close h) rc
  :: match rc with
     | Returns _ => [EvPrint InfoClosed]
     | Raises _ => []
     end.

(** The line and the backoff of the clause that catches [e]: the first
    clause for an [OSError], the second for any other [Exception]. *)
Definition error_line (e : exn) : line :=
  if is_OSError e then ErrorRead e else ErrorUnexpected e.

Definition backoff (e : exn) : Z :=
  if is_OSError e then 1000 else 2000.

(** A trace keeps the handle discipline from the handles [hs] when, at each
    of its points, at most one handle is out, and each open happens while
    none is. *)
Fixpoint disciplined (hs : list handle) (t : trace) : Prop :=
  (List.length hs <= 1)%nat
  /\ match t with
     | [] => True
     | ev :: t' =>
         (opened ev <> None -> hs = []) /\ disciplined (held hs [ev]) t'
     end.

(** What a turn started with [dev] owes the discipline: its trace keeps it,
    and the handles out after a turn that returned are what [dev] holds
    then. *)
Definition step_ok (dev : option handle)
  (x : trace * option handle * result unit) : Prop :=
  let '(t, dev', r) := x in
  disciplined (handles_of dev) t
  /\ match r with
     | Returns _ => held (handles_of dev) t = handles_of dev'
     | Raises _ => (List.length (held (handles_of dev) t) <= 1)%nat
     end.

(** A trace in which nothing is opened and nothing closed. *)
Definition quiet (t : trace) : Prop :=
  Forall (fun ev => opened ev = None /\ close_attempt ev = None) t.

(** The test of line 24: the entry is the sensor interface. *)
Definition is_sensor_interface (d : descriptor) : bool :=
  (usage_page d =? USAGE_PAGE_SENSOR) && (usage d =? USAGE_SENSOR).

(** No thermometer plugged in, and no interrupt. *)
Definition env_absent : env :=
  {| answer := fun R c _ => healthy [keyboard] [] R c;
     sigint := fun _ => false |}.

(** A sensor that opens but refuses the switch to blocking mode. *)
Definition env_setnb_fails : env :=
  {| answer := fun R c _ =>
       match c in call R return result R with
       | SetNonblocking _ _ => Raises (OSError "set_nonblocking failed")
       | c' => healthy [sensor] reply_25 _ c'
       end;
     sigint := fun _ => false |}.

(** An unplugged sensor, with Ctrl-C arriving during the close made at
    position [k]. *)
Definition env_close_interrupted (k : nat) : env :=
  {| answer := fun R c n =>
       match c in call R return result R with
       | Write _ _ => Returns (-1)
       | Close _ => if (n =? k)%nat then Raises KeyboardInterrupt else Returns tt
       | c' => healthy [sensor] reply_25 _ c'
       end;
     sigint := fun _ => false |}.

(** An event through which an interrupt reached the program. *)
Definition interrupt_event (ev : event) : bool :=
  match ev with
  | EvSleep _ i => i
  | EvHid _ (Raises KeyboardInterrupt) => true
  | _ => false
  end.

(** What an event of [main] may be while the handles [hs] are out: input
    and output go to the one handle that is out, with the command frame
    and the fixed read size and timeout; searching and opening happen while
    none is out; a sleep lasts 100, 1000 or 2000 ms. *)
Definition event_ok (hs : list handle) (ev : event) : Prop :=
  match ev with
  | EvHid c _ =>
      match c with
      | Enumerate vid pid => hs = [] /\ vid = VENDOR_ID /\ pid = PRODUCT_ID
      | OpenPath _ => hs = []
      | SetNonblocking h b => hs = [h] /\ b = false
      | Write h buf => hs = [h] /\ buf = command_frame
      | Read h max_length timeout_ms =>
          hs = [h] /\ max_length = 64 /\ timeout_ms = 1000
      | Close _ => True
      end
  | EvSleep ms _ => ms = 100 \/ ms = 1000 \/ ms = 2000
  | EvPrint _ => True
  end.

Fixpoint events_ok (hs : list handle) (t : trace) : Prop :=
  match t with
  | [] => True
  | ev :: t' => event_ok hs ev /\ events_ok (held hs [ev]) t'
  end.

(** The calls of the connect phase. *)
Definition connect_call {R : Type} (c : call R) : bool :=
  match c with
  | Enumerate _ _ | OpenPath _ | SetNonblocking _ _ => true
  | _ => false
  end.

(** The events [EvHid c (Raises e)] of a trace whose call is of the connect
    phase: the exceptions they raised. *)
Definition connect_failures (t : trace) : list exn :=
  flat_map (fun ev => match ev with
                      | EvHid c (Raises e) => if connect_call c then [e] else []
                      | _ => []
                      end) t.

(** A printed line is sound when, if it reports a reading, the value it
    shows is what its raw report decodes to, the report has four to eight
    bytes, and the line is the warning exactly for a value outside the
    plausibility window. *)
Definition line_sound (l : line) : Prop :=
  match l with
  | Reading temp_c raw =>
      decode_temp_from_report raw = Returns temp_c
      /\ (4 <= List.length raw <= 8)%nat /\ plausible temp_c = true
  | Implausible temp_c raw =>
      decode_temp_from_report raw = Returns temp_c
      /\ (4 <= List.length raw <= 8)%nat /\ plausible temp_c = false
  | _ => True
  end.

Definition event_sound (ev : event) : Prop :=
  match ev with
  | EvPrint l => line_sound l
  | _ => True
  end.

(** * Properties *)

(** ** Sanity checks of the embedding *)

Example decode_25 :
  decode_temp_from_report [x80; x01; x19; x00; x00; x00; x00; x00] = Returns 25%float.
Proof. vm_compute. reflexivity. Qed.

Example decode_short :
  decode_temp_from_report [x80; x01; x19]
  = Raises (ValueError "Antwort zu kurz: [128, 1, 25]").
Proof. vm_compute. reflexivity. Qed.

Example format_25 : format_6_2f 25%float = " 25.00".
Proof. vm_compute. reflexivity. Qed.

Example format_half_even : format_2f 0.125%float = "0.12".
Proof. vm_compute. reflexivity. Qed.

Example format_neg : format_6_2f (-2.00390625)%float = " -2.00".
Proof. vm_compute. reflexivity. Qed.

(** ** Bytes and the 16-bit field *)

Lemma byte_val_range (b : byte) : 0 <= byte_val b < 256.
Proof.
  unfold byte_val. pose proof (Byte.to_N_bounded b). lia.
Qed.

Lemma zrange_from_In (n : nat) :
  forall lo x, lo <= x < lo + Z.of_nat n -> In x (zrange_from lo n).
Proof.
  induction n as [|n IH]; intros lo x Hx; [lia|].
  cbn [zrange_from]. destruct (Z.eq_dec lo x) as [->|Hne].
  - now left.
  - right. apply IH. lia.
Qed.

Lemma zrange_In (lo x n : Z) :
  lo <= x < lo + n -> In x (zrange lo n).
Proof.
  intros Hx. unfold zrange. apply zrange_from_In. lia.
Qed.

(** The shifts and masks of the unpacking compute the two's complement
    reading, checked on all 65536 pairs. *)
Lemma unpack_table :
  forallb (fun hi =>
    forallb (fun lo =>
      Z.lxor (Z.lor (Z.shiftl hi 8) lo) 0x8000 - 0x8000 =? signed_be16 hi lo)
      (zrange 0 256))
    (zrange 0 256) = true.
Proof. vm_compute. reflexivity. Qed.

Lemma unpack_be_h_signed (hi lo : byte) :
  unpack_be_h [hi; lo] = Returns (signed_be16 (byte_val hi) (byte_val lo)).
Proof.
  unfold unpack_be_h. f_equal.
  pose proof unpack_table as T.
  rewrite forallb_forall in T.
  specialize (T (byte_val hi) (zrange_In 0 _ 256 (byte_val_range hi))).
  rewrite forallb_forall in T.
  specialize (T (byte_val lo) (zrange_In 0 _ 256 (byte_val_range lo))).
  apply Z.eqb_eq in T. exact T.
Qed.

Lemma signed_be16_range (hi lo : Z) :
  0 <= hi < 256 -> 0 <= lo < 256 ->
  - 2 ^ 15 <= signed_be16 hi lo < 2 ^ 15.
Proof.
  intros Hh Hl. unfold signed_be16. cbv zeta.
  destruct (Z.ltb_spec (hi * 256 + lo) (2 ^ 15)); lia.
Qed.

(** ** Floats of the 16-bit range *)

(** For each 16-bit [raw], the quotient [raw / 256.0] is the rational
    raw/256 with no rounding, and the default calibration leaves it as it
    is; checked on all 65536 values. *)
Lemma celsius_table :
  forallb (fun raw =>
    let c := (float_of_int raw / 256)%float in
    represents c (Qmake raw 256)
    && PrimFloat.Leibniz.eqb (c * SCALE + OFFSET)%float c)
    (zrange (- 2 ^ 15) 65536) = true.
Proof. vm_compute. reflexivity. Qed.

Lemma celsius_exact (raw : Z) :
  - 2 ^ 15 <= raw < 2 ^ 15 ->
  represents (float_of_int raw / 256)%float (Qmake raw 256) = true
  /\ (float_of_int raw / 256 * SCALE + OFFSET)%float = (float_of_int raw / 256)%float.
Proof.
  intros Hr. pose proof celsius_table as T.
  rewrite forallb_forall in T.
  specialize (T raw). cbv zeta in T.
  rewrite andb_true_iff in T.
  destruct T as [T1 T2]; [apply zrange_In; lia|].
  split; [exact T1|].
  apply FloatAxioms.Leibniz.eqb_spec. exact T2.
Qed.

(** ** The frame decoder *)

Lemma slice_2_4 {A : Type} (b0 b1 b2 b3 : A) (rest : list A) :
  slice 2 4 (b0 :: b1 :: b2 :: b3 :: rest) = [b2; b3].
Proof. reflexivity. Qed.

Lemma four_or_more {A : Type} (l : list A) :
  (4 <= List.length l)%nat ->
  exists b0 b1 b2 b3 rest, l = b0 :: b1 :: b2 :: b3 :: rest.
Proof.
  intros H.
  destruct l as [|b0 [|b1 [|b2 [|b3 rest]]]]; cbn in H; try lia.
  now exists b0, b1, b2, b3, rest.
Qed.

Lemma decode_long (b0 b1 b2 b3 : byte) (rest : list byte) :
  decode_temp_from_report (b0 :: b1 :: b2 :: b3 :: rest)
  = Returns (float_of_int (signed_be16 (byte_val b2) (byte_val b3)) / 256
             * SCALE + OFFSET)%float.
Proof.
  unfold decode_temp_from_report.
  replace (List.length (b0 :: b1 :: b2 :: b3 :: rest) <? 4)%nat with false
    by (symmetry; apply Nat.ltb_ge; cbn; lia).
  rewrite slice_2_4, unpack_be_h_signed. reflexivity.
Qed.

Lemma decode_cases (data : list byte) :
  ((List.length data < 4)%nat
   /\ decode_temp_from_report data
      = Raises (ValueError ("Antwort zu kurz: " ++ repr_list data)))
  \/ ((4 <= List.length data)%nat
      /\ exists celsius, decode_temp_from_report data = Returns celsius).
Proof.
  destruct (Nat.ltb_spec (List.length data) 4) as [Hs|Hl].
  - left. split; [exact Hs|].
    unfold decode_temp_from_report.
    now replace (List.length data <? 4)%nat with true
      by (symmetry; apply Nat.ltb_lt; exact Hs).
  - right. split; [exact Hl|].
    destruct (four_or_more data Hl) as (b0 & b1 & b2 & b3 & rest & ->).
    eexists. apply decode_long.
Qed.

(** C3: a report of at least four bytes decodes to [raw / 256.0] carried
    through the calibration [* SCALE + OFFSET], where [raw] is the signed
    big-endian 16-bit integer in bytes 2 and 3.  The calibration is the
    identity, and the quotient is the rational raw/256 without rounding.
    Bytes 0x19, 0x00 (raw 6400) give 25.0 and bytes 0xFE, 0x00 (raw -512)
    give -2.0. *)
Theorem decode_signed_be16_over_256 (data : list byte) :
  (4 <= List.length data)%nat ->
  exists b0 b1 b2 b3 rest,
    data = b0 :: b1 :: b2 :: b3 :: rest
    /\ let raw := signed_be16 (byte_val b2) (byte_val b3) in
       let celsius := (float_of_int raw / 256)%float in
       decode_temp_from_report data = Returns (celsius * SCALE + OFFSET)%float
       /\ SCALE = 1%float /\ OFFSET = 0%float
       /\ (celsius * SCALE + OFFSET)%float = celsius
       /\ represents celsius (Qmake raw 256) = true
       /\ (b2 = x19 -> b3 = x00 ->
           raw = 6400 /\ decode_temp_from_report data = Returns 25%float)
       /\ (b2 = xfe -> b3 = x00 ->
           raw = -512 /\ decode_temp_from_report data = Returns (-2)%float).
Proof.
  intros Hlen.
  destruct (four_or_more data Hlen) as (b0 & b1 & b2 & b3 & rest & ->).
  exists b0, b1, b2, b3, rest. split; [reflexivity|].
  cbv zeta.
  pose proof (signed_be16_range _ _ (byte_val_range b2) (byte_val_range b3)) as Hr.
  destruct (celsius_exact _ Hr) as [Hq Hid].
  repeat split.
  - apply decode_long.
  - exact Hid.
  - exact Hq.
  - subst. reflexivity.
  - subst. rewrite decode_long. vm_compute. reflexivity.
  - subst. reflexivity.
  - subst. rewrite decode_long. vm_compute. reflexivity.
Qed.

Lemma decode_signed_be16_over_256_witness :
  (4 <= List.length [x80; x01; xfe; x00])%nat
  /\ exists b0 b1 b2 b3 rest,
    [x80; x01; xfe; x00] = b0 :: b1 :: b2 :: b3 :: rest
    /\ let raw := signed_be16 (byte_val b2) (byte_val b3) in
       let celsius := (float_of_int raw / 256)%float in
       decode_temp_from_report [x80; x01; xfe; x00]
       = Returns (celsius * SCALE + OFFSET)%float
       /\ SCALE = 1%float /\ OFFSET = 0%float
       /\ (celsius * SCALE + OFFSET)%float = celsius
       /\ represents celsius (Qmake raw 256) = true
       /\ (b2 = x19 -> b3 = x00 ->
           raw = 6400
           /\ decode_temp_from_report [x80; x01; xfe; x00] = Returns 25%float)
       /\ (b2 = xfe -> b3 = x00 ->
           raw = -512
           /\ decode_temp_from_report [x80; x01; xfe; x00] = Returns (-2)%float).
Proof.
  split; [cbn; lia|].
  apply (decode_signed_be16_over_256 [x80; x01; xfe; x00]). cbn. lia.
Defined.

(** C4: decoding raises the too-short error exactly on reports of fewer
    than four bytes, and returns a value exactly on reports of four bytes
    or more. *)
Theorem decode_fails_iff_short (data : list byte) :
  (decode_temp_from_report data
   = Raises (ValueError ("Antwort zu kurz: " ++ repr_list data))
   <-> (List.length data < 4)%nat)
  /\ ((exists celsius, decode_temp_from_report data = Returns celsius)
      <-> (4 <= List.length data)%nat).
Proof.
  destruct (decode_cases data) as [[Hs Hd]|[Hl [c Hd]]]; rewrite Hd;
    split; split; intros H; try reflexivity; try lia; try discriminate.
  - destruct H as [c H]. discriminate.
  - now exists c.
Qed.

Example decode_three_bytes_fails :
  decode_temp_from_report [x80; x01; x19]
  = Raises (ValueError "Antwort zu kurz: [128, 1, 25]")
  /\ decode_temp_from_report [x80; x01; x19; x00] = Returns 25%float.
Proof. split; vm_compute; reflexivity. Qed.

(** ** Runs of composed programs *)

Section Runs.

Variable E : env.

Lemma emit_eq {A : Type} (ev : event) (x : trace * option handle * result A)
  (t : trace) (d : option handle) (r : result A) :
  x = (t, d, r) -> emit ev x = (ev :: t, d, r).
Proof. intros ->. reflexivity. Qed.

(** A sequence whose first part returns goes on with the second part,
    from where the first part stopped. *)
Lemma run_bind_returns {A B : Type} (p : prog A) (f : A -> prog B) :
  forall dev n t dev1 a t' dev2 r,
    run E p dev n = (t, dev1, Returns a) ->
    run E (f a) dev1 (n + List.length t) = (t', dev2, r) ->
    run E (bind p f) dev n = ((t ++ t'), dev2, r).
Proof.
  induction p as [a0|e0|R c k IH|ms k IH|l k IH|k IH|d0 k IH];
    intros dev n t dev1 a t' dev2 r Hp Hf; cbn in Hp |- *.
  - injection Hp as <- <- <-. cbn in Hf. now rewrite Nat.add_0_r in Hf.
  - discriminate.
  - destruct (run E (k (answer E R c n)) dev (S n)) as [[t0 d0] r0] eqn:Hk.
    cbn in Hp. injection Hp as <- <- ->.
    cbn. apply emit_eq. eapply IH; [exact Hk|].
    cbn in Hf. now rewrite Nat.add_succ_r in Hf.
  - destruct (run E (k (sigint E n)) dev (S n)) as [[t0 d0] r0] eqn:Hk.
    cbn in Hp. injection Hp as <- <- ->.
    cbn. apply emit_eq. eapply IH; [exact Hk|].
    cbn in Hf. now rewrite Nat.add_succ_r in Hf.
  - destruct (run E k dev (S n)) as [[t0 d0] r0] eqn:Hk.
    cbn in Hp. injection Hp as <- <- ->.
    cbn. apply emit_eq. eapply IH; [exact Hk|].
    cbn in Hf. now rewrite Nat.add_succ_r in Hf.
  - eapply IH; eassumption.
  - eapply IH; eassumption.
Qed.

(** A sequence whose first part raises stops there. *)
Lemma run_bind_raises {A B : Type} (p : prog A) (f : A -> prog B) :
  forall dev n t dev1 e,
    run E p dev n = (t, dev1, Raises e) ->
    run E (bind p f) dev n = (t, dev1, Raises e).
Proof.
  induction p as [a0|e0|R c k IH|ms k IH|l k IH|k IH|d0 k IH];
    intros dev n t dev1 e Hp; cbn in Hp |- *.
  - discriminate.
  - now injection Hp as <- <- <-.
  - destruct (run E (k (answer E R c n)) dev (S n)) as [[t0 d0] r0] eqn:Hk.
    cbn in Hp. injection Hp as <- <- ->.
    apply emit_eq. eapply IH; exact Hk.
  - destruct (run E (k (sigint E n)) dev (S n)) as [[t0 d0] r0] eqn:Hk.
    cbn in Hp. injection Hp as <- <- ->.
    apply emit_eq. eapply IH; exact Hk.
  - destruct (run E k dev (S n)) as [[t0 d0] r0] eqn:Hk.
    cbn in Hp. injection Hp as <- <- ->.
    apply emit_eq. eapply IH; exact Hk.
  - eapply IH; eassumption.
  - eapply IH; eassumption.
Qed.

(** A [try] whose body returns runs no clause. *)
Lemma run_try_returns {A : Type} (p : prog A) (h : exn -> option (prog A)) :
  forall dev n t dev1 a,
    run E p dev n = (t, dev1, Returns a) ->
    run E (try_except p h) dev n = (t, dev1, Returns a).
Proof.
  induction p as [a0|e0|R c k IH|ms k IH|l k IH|k IH|d0 k IH];
    intros dev n t dev1 a Hp; cbn in Hp |- *.
  - exact Hp.
  - discriminate.
  - destruct (run E (k (answer E R c n)) dev (S n)) as [[t0 d0] r0] eqn:Hk.
    cbn in Hp. injection Hp as <- <- ->.
    apply emit_eq. eapply IH; exact Hk.
  - destruct (run E (k (sigint E n)) dev (S n)) as [[t0 d0] r0] eqn:Hk.
    cbn in Hp. injection Hp as <- <- ->.
    apply emit_eq. eapply IH; exact Hk.
  - destruct (run E k dev (S n)) as [[t0 d0] r0] eqn:Hk.
    cbn in Hp. injection Hp as <- <- ->.
    apply emit_eq. eapply IH; exact Hk.
  - eapply IH; eassumption.
  - eapply IH; eassumption.
Qed.

(** A [try] whose body raises runs the clause that matches, from where
    the body stopped, or lets the exception through when none does. *)
Lemma run_try_raises {A : Type} (p : prog A) (h : exn -> option (prog A)) :
  forall dev n t dev1 e,
    run E p dev n = (t, dev1, Raises e) ->
    run E (try_except p h) dev n
    = match h e with
      | Some q =>
          let '(t', dev2, r) := run E q dev1 (n + List.length t) in
          ((t ++ t'), dev2, r)
      | None => (t, dev1, Raises e)
      end.
Proof.
  induction p as [a0|e0|R c k IH|ms k IH|l k IH|k IH|d0 k IH];
    intros dev n t dev1 e Hp; cbn in Hp |- *.
  - discriminate.
  - injection Hp as <- <- ->. cbn. rewrite Nat.add_0_r.
    destruct (h e) as [q|]; [|reflexivity].
    now destruct (run E q dev n) as [[t' d'] r'].
  - destruct (run E (k (answer E R c n)) dev (S n)) as [[t0 d0] r0] eqn:Hk.
    cbn in Hp. injection Hp as <- <- ->.
    rewrite (IH _ _ _ _ _ _ Hk). cbn. rewrite Nat.add_succ_r.
    destruct (h e) as [q|]; [|reflexivity].
    now destruct (run E q d0 (S (n + List.length t0))) as [[t' d'] r'].
  - destruct (run E (k (sigint E n)) dev (S n)) as [[t0 d0] r0] eqn:Hk.
    cbn in Hp. injection Hp as <- <- ->.
    rewrite (IH _ _ _ _ _ _ Hk). cbn. rewrite Nat.add_succ_r.
    destruct (h e) as [q|]; [|reflexivity].
    now destruct (run E q d0 (S (n + List.length t0))) as [[t' d'] r'].
  - destruct (run E k dev (S n)) as [[t0 d0] r0] eqn:Hk.
    cbn in Hp. injection Hp as <- <- ->.
    rewrite (IH _ _ _ _ _ Hk). cbn. rewrite Nat.add_succ_r.
    destruct (h e) as [q|]; [|reflexivity].
    now destruct (run E q d0 (S (n + List.length t0))) as [[t' d'] r'].
  - eapply IH; eassumption.
  - eapply IH; eassumption.
Qed.

End Runs.

(** ** The device locator *)

(** The scan stops at the first enumerated entry with the sensor's usage
    page and usage. *)
Lemma open_temper_scan_find (devices : list descriptor) :
  open_temper_scan devices
  = match find (fun d => (usage_page d =? USAGE_PAGE_SENSOR)
                         && (usage d =? USAGE_SENSOR)) devices with
    | Some d =>
        print (InfoUsingDevice d) ;;
        dev <- hid (OpenPath (path d)) ;;
        hid (SetNonblocking dev false) ;;
        Ret (Some dev)
    | None => Ret None
    end.
Proof.
  induction devices as [|d rest IH]; [reflexivity|].
  cbn [open_temper_scan find].
  now destruct ((usage_page d =? USAGE_PAGE_SENSOR) && (usage d =? USAGE_SENSOR)).
Qed.

(** Among the entries enumerated for the target's vendor and product id,
    the first with the sensor's usage page and usage is the first entry of
    the host that has all four constants. *)
Lemma find_in_enumeration (host : list descriptor) :
  find (fun d => (usage_page d =? USAGE_PAGE_SENSOR) && (usage d =? USAGE_SENSOR))
       (hid_enumerate host VENDOR_ID PRODUCT_ID)
  = find is_target host.
Proof.
  induction host as [|d rest IH]; [reflexivity|].
  assert (Ht : is_target d
               = ((vendor_id d =? VENDOR_ID) && (product_id d =? PRODUCT_ID))
                 && ((usage_page d =? USAGE_PAGE_SENSOR) && (usage d =? USAGE_SENSOR)))
    by (unfold is_target; now rewrite andb_assoc).
  unfold hid_enumerate in *. cbn [filter find]. rewrite Ht.
  replace (VENDOR_ID =? 0) with false by reflexivity.
  replace (PRODUCT_ID =? 0) with false by reflexivity.
  cbn [orb].
  destruct ((vendor_id d =? VENDOR_ID) && (product_id d =? PRODUCT_ID));
    cbn [andb find]; [|exact IH].
  now destruct ((usage_page d =? USAGE_PAGE_SENSOR) && (usage d =? USAGE_SENSOR)).
Qed.

Lemma find_first {A : Type} (f : A -> bool) (l1 l2 : list A) (a : A) :
  (forall x, In x l1 -> f x = false) -> f a = true ->
  find f (l1 ++ a :: l2) = Some a.
Proof.
  intros Hl Ha. induction l1 as [|x l1 IH]; cbn.
  - now rewrite Ha.
  - rewrite (Hl x (or_introl eq_refl)). apply IH.
    intros y Hy. apply Hl. now right.
Qed.

(** C8: when enumeration hands out the host's entries with the target's
    vendor and product id in the host's order, the locator uses the first
    entry of the host whose vendor id, product id, usage page and usage are
    the four constants, opens its path and no other, and returns None with
    nothing opened when the host has no such entry; an entry with the four
    constants that has no such entry before it is the one used, whatever
    follows it. *)
Theorem locator_selects_first_target
  (E : env) (host : list descriptor) (dev : option handle) (n : nat) :
  answer E _ (Enumerate VENDOR_ID PRODUCT_ID) n
  = Returns (hid_enumerate host VENDOR_ID PRODUCT_ID) ->
  VENDOR_ID = 0x0C45 /\ PRODUCT_ID = 0x7401
  /\ USAGE_PAGE_SENSOR = 0xFF00 /\ USAGE_SENSOR = 0x01
  /\ (let '(t, _, r) := run E open_temper dev n in
      announced t = option_list (find is_target host)
      /\ open_paths t = map path (option_list (find is_target host))
      /\ (find is_target host = None -> r = Returns None))
  /\ (forall l1 d l2,
        host = (l1 ++ d :: l2) ->
        (forall x, In x l1 -> is_target x = false) ->
        is_target d = true ->
        find is_target host = Some d).
Proof.
  intros He. repeat split.
  - unfold open_temper. cbn [bind hid run]. rewrite He. cbn [bind].
    rewrite open_temper_scan_find, find_in_enumeration.
    destruct (find is_target host) as [d|]; cbn.
    + destruct (answer E handle (OpenPath (path d)) (S (S n))) as [h|e]; cbn.
      * destruct (answer E unit (SetNonblocking h false) (S (S (S n)))) as [u|e];
          cbn; repeat split; intros; discriminate.
      * repeat split; intros; discriminate.
    + repeat split.
  - intros l1 d l2 -> Hl Hd. now apply find_first.
Qed.

Lemma locator_selects_first_target_witness :
  answer (env_of_host [mouse; keyboard; sensor; sensor_b]) _
         (Enumerate VENDOR_ID PRODUCT_ID) 1
  = Returns (hid_enumerate [mouse; keyboard; sensor; sensor_b] VENDOR_ID PRODUCT_ID)
  /\ open_paths (fst (fst (run (env_of_host [mouse; keyboard; sensor; sensor_b])
                               open_temper None 1)))
     = [path sensor]
  /\ find is_target [mouse; keyboard; sensor; sensor_b] = Some sensor.
Proof.
  split; [reflexivity|].
  destruct (locator_selects_first_target
              (env_of_host [mouse; keyboard; sensor; sensor_b])
              [mouse; keyboard; sensor; sensor_b] None 1 eq_refl)
    as (_ & _ & _ & _ & Hrun & Hfirst).
  split.
  - destruct (run (env_of_host [mouse; keyboard; sensor; sensor_b])
                  open_temper None 1) as [[t d] r].
    destruct Hrun as (_ & Hp & _). exact Hp.
  - apply (Hfirst [mouse; keyboard] sensor [sensor_b]).
    + reflexivity.
    + intros x [<-|[<-|[]]]; reflexivity.
    + reflexivity.
Defined.

(** ** The protocol exchange *)

Arguments decode_temp_from_report : simpl never.
Arguments String.append : simpl never.

Lemma command_frame_length : List.length command_frame = 64%nat.
Proof. reflexivity. Qed.

(** The run of [read_temperature] when the write and the read return and
    the settle delay is not interrupted. *)
Lemma run_read_temperature
  (E : env) (h : handle) (dev : option handle) (n : nat)
  (written : Z) (data : list byte) :
  answer E _ (Write h command_frame) n = Returns written ->
  sigint E (S n) = false ->
  answer E _ (Read h 64 1000) (S (S n)) = Returns data ->
  run E (read_temperature h) dev n
  = if written <=? 0 then
      ([EvHid (Write h command_frame) (Returns written)], dev, Raises WriteError)
    else
      ([EvHid (Write h command_frame) (Returns written);
        EvSleep 100 false;
        EvHid (Read h 64 1000) (Returns data)],
       dev,
       match data with
       | [] => Raises TimeoutError
       | _ => match decode_temp_from_report (firstn 8 data) with
              | Returns temp_c => Returns (temp_c, firstn 8 data)
              | Raises e => Raises e
              end
       end).
Proof.
  intros Hw Hs Hr. unfold read_temperature.
  change ([x00; x01; x80; x33; x01; x00; x00; x00; x00]
          ++ repeat x00 (64 - List.length [x00; x01; x80; x33; x01; x00; x00; x00; x00]))
    with command_frame.
  cbn [bind hid run]. rewrite Hw. cbn [bind emit run].
  destruct (written <=? 0); [reflexivity|].
  cbn [bind sleep hid run]. rewrite Hs. cbn [bind hid run]. rewrite Hr.
  destruct data as [|b data']; [reflexivity|].
  cbn [bind lift run emit].
  destruct (decode_temp_from_report (firstn 8 (b :: data'))); reflexivity.
Qed.

(** C5: an exchange first writes the command frame (the nine command bytes
    and 55 zeros, 64 bytes) and raises the write error exactly when the
    write reports no byte written, with nothing done after it; otherwise it
    sleeps 100 ms and then reads up to 64 bytes with a timeout of 1000 ms,
    raises the timeout error exactly when no data came, and otherwise hands
    the first eight bytes of the data, no more, to the decoder and returns
    them as the raw report. *)
Theorem exchange_protocol
  (E : env) (h : handle) (dev : option handle) (n : nat)
  (written : Z) (data : list byte) :
  answer E _ (Write h command_frame) n = Returns written ->
  sigint E (S n) = false ->
  answer E _ (Read h 64 1000) (S (S n)) = Returns data ->
  command_frame
  = ([x00; x01; x80; x33; x01; x00; x00; x00; x00] ++ repeat x00 55)
  /\ List.length command_frame = 64%nat
  /\ let '(t, dev', r) := run E (read_temperature h) dev n in
     dev' = dev
     /\ (written <= 0 ->
         t = [EvHid (Write h command_frame) (Returns written)]
         /\ r = Raises WriteError)
     /\ (0 < written ->
         t = [EvHid (Write h command_frame) (Returns written);
              EvSleep 100 false;
              EvHid (Read h 64 1000) (Returns data)]
         /\ (data = [] -> r = Raises TimeoutError)
         /\ (data <> [] ->
             r = match decode_temp_from_report (firstn 8 data) with
                 | Returns temp_c => Returns (temp_c, firstn 8 data)
                 | Raises e => Raises e
                 end))
     /\ (r = Raises WriteError <-> written <= 0)
     /\ (r = Raises TimeoutError <-> 0 < written /\ data = [])
     /\ (forall temp_c raw,
           r = Returns (temp_c, raw) ->
           raw = firstn 8 data
           /\ List.length raw = Nat.min 8 (List.length data)).
Proof.
  intros Hw Hs Hr. split; [reflexivity|]. split; [reflexivity|].
  rewrite (run_read_temperature E h dev n written data Hw Hs Hr).
  destruct (Z.leb_spec written 0) as [Hle|Hgt].
  - repeat split; try lia; try discriminate; intros; lia.
  - split; [reflexivity|]. split; [intros; lia|].
    destruct data as [|b data'].
    + repeat split; try discriminate; try congruence; intros; lia.
    + destruct (decode_cases (firstn 8 (b :: data'))) as [[_ Hd]|[_ [c Hd]]];
        rewrite Hd; repeat split; try discriminate; try congruence; try lia;
        intros; try discriminate;
        try match goal with H : _ /\ _ :: _ = [] |- _ => destruct H; discriminate end.
      injection H as <- <-. exact (length_firstn 8 (b :: data')).
Qed.

Lemma exchange_protocol_witness :
  answer env_healthy _ (Write 1%nat command_frame) 0 = Returns 64
  /\ sigint env_healthy 1 = false
  /\ answer env_healthy _ (Read 1%nat 64 1000) 2 = Returns reply_25
  /\ run env_healthy (read_temperature 1%nat) (Some 1%nat) 0
     = ([EvHid (Write 1%nat command_frame) (Returns 64);
         EvSleep 100 false;
         EvHid (Read 1%nat 64 1000) (Returns reply_25)],
        Some 1%nat,
        Returns (25%float, reply_25)).
Proof.
  split; [reflexivity|]. split; [reflexivity|]. split; [reflexivity|].
  pose proof (exchange_protocol env_healthy 1%nat (Some 1%nat) 0%nat 64 reply_25
                eq_refl eq_refl eq_refl) as (_ & _ & H).
  destruct (run env_healthy (read_temperature 1%nat) (Some 1%nat) 0)
    as [[t d] r].
  destruct H as (-> & _ & Hok & _).
  destruct Hok as (-> & _ & Hr); [lia|].
  rewrite Hr by discriminate. vm_compute. reflexivity.
Defined.

(** ** The turns of the supervisor loop *)

Section Turns.

Variable E : env.

Lemma run_loop_body_connected (h : handle) (n : nat) :
  run E loop_body (Some h) n = run E (measure_step h) (Some h) n.
Proof. reflexivity. Qed.

Lemma run_loop_body_disconnected (n : nat) :
  run E loop_body None n = run E connect_step None n.
Proof. reflexivity. Qed.

Lemma main_loop_goes_on (turns : nat) (dev dev' : option handle) (n : nat)
  (t : trace) (u : unit) :
  run E loop_body dev n = (t, dev', Returns u) ->
  main_loop E (S turns) dev n
  = let '(t', o) := main_loop E turns dev' (n + List.length t) in
    ((t ++ t'), o).
Proof. intros H. cbn [main_loop]. now rewrite H. Qed.

Lemma main_loop_leaves (turns : nat) (dev dev' : option handle) (n : nat)
  (t : trace) (e : exn) :
  run E loop_body dev n = (t, dev', Raises e) ->
  main_loop E (S turns) dev n
  = let '(t', _, r) := run E (main_exit e) dev' (n + List.length t) in
    ((t ++ t'), Left r).
Proof. intros H. cbn [main_loop]. now rewrite H. Qed.


Lemma run_close_quietly (h : handle) (dev : option handle) (n : nat) :
  run E (close_quietly h) dev n
  = (close_events h (answer E _ (Close h) n), dev,
     match answer E _ (Close h) n with
     | Raises KeyboardInterrupt => Raises KeyboardInterrupt
     | _ => Returns tt
     end).
Proof.
  unfold close_quietly, close_events. cbn [bind hid print try_except run].
  destruct (answer E unit (Close h) n) as [u|e]; [reflexivity|].
  now destruct e.
Qed.

(** A turn whose exchange and decoding return: the reading is reported
    and the loop sleeps one second. *)
Lemma run_measure_step_returns (h : handle) (dev dev1 : option handle)
  (n : nat) (t0 : trace) (temp_c : float) (raw : list byte) :
  run E (read_temperature h) dev n = (t0, dev1, Returns (temp_c, raw)) ->
  run E (measure_step h) dev n
  = ((t0 ++ [EvPrint (report temp_c raw);
             EvSleep 1000 (sigint E (S (n + List.length t0)))]),
     dev1,
     if sigint E (S (n + List.length t0))
     then Raises KeyboardInterrupt else Returns tt).
Proof.
  intros H. unfold measure_step.
  destruct (sigint E (S (n + List.length t0))) eqn:Hi.
  - erewrite run_try_raises.
    2:{ eapply run_bind_returns; [exact H|].
        cbn [bind print sleep run]. rewrite Hi. reflexivity. }
    reflexivity.
  - apply run_try_returns.
    eapply run_bind_returns; [exact H|].
    cbn [bind print sleep run]. rewrite Hi. reflexivity.
Qed.

(** A turn whose exchange or decoding raises an [Exception], with no
    interrupt around: the matching clause reports it, attempts one close,
    forgets the handle and sleeps its backoff. *)
Lemma run_measure_step_raises (h : handle) (dev dev1 : option handle)
  (n : nat) (t0 : trace) (e : exn) :
  no_interrupt E ->
  run E (read_temperature h) dev n = (t0, dev1, Raises e) ->
  is_Exception e = true ->
  run E (measure_step h) dev n
  = ((t0 ++ EvPrint (error_line e)
         :: close_events h (answer E _ (Close h) (S (n + List.length t0)))
         ++ [EvSleep (backoff e) false]),
     None, Returns tt).
Proof.
  intros [Hsig Hans] H He. unfold measure_step.
  erewrite run_try_raises.
  2:{ eapply run_bind_raises. exact H. }
  unfold error_line, backoff.
  assert (Hrec : forall l ms,
    run E (print l ;; close_quietly h ;; set_dev None ;; sleep ms) dev1
        (n + List.length t0)
    = (EvPrint l :: close_events h (answer E _ (Close h) (S (n + List.length t0)))
         ++ [EvSleep ms false], None, Returns tt)).
  { intros l ms. cbn [bind print run]. apply emit_eq.
    eapply run_bind_returns.
    - rewrite run_close_quietly.
      pose proof (Hans _ (Close h) (S (n + List.length t0))) as Hc.
      destruct (answer E unit (Close h) (S (n + List.length t0))) as [[]|[]];
        try reflexivity. congruence.
    - cbn [bind set_dev sleep run]. rewrite Hsig. reflexivity. }
  destruct (is_OSError e).
  - now rewrite Hrec.
  - rewrite He. now rewrite Hrec.
Qed.

End Turns.

(** ** Events that open or close *)

Lemma held_app (hs : list handle) (t t' : trace) :
  held hs (t ++ t') = held (held hs t) t'.
Proof.
  revert hs. induction t as [|ev t IH]; intros hs; [reflexivity|].
  cbn [app held]. apply IH.
Qed.

Lemma held_quiet (hs : list handle) (t : trace) :
  quiet t -> held hs t = hs.
Proof.
  intros H. induction H as [|ev t [Ho Hc] _ IH]; [reflexivity|].
  cbn [held]. now rewrite Ho, Hc.
Qed.

Lemma closes_app (t t' : trace) : closes (t ++ t') = (closes t + closes t')%nat.
Proof. unfold closes. now rewrite filter_app, length_app. Qed.

Lemma closes_quiet (t : trace) : quiet t -> closes t = 0%nat.
Proof.
  intros H. induction H as [|ev t [_ Hc] _ IH]; [reflexivity|].
  unfold closes in *. cbn [filter]. now rewrite Hc.
Qed.

Lemma closes_close_events (h : handle) (rc : result unit) :
  closes (close_events h rc) = 1%nat.
Proof. now destruct rc. Qed.

Ltac ask E :=
  match goal with
  | |- context [answer E ?R ?c ?n] =>
      let H := fresh "Ha" in
      destruct (answer E R c n) eqn:H; cbn
  | |- context [sigint E ?n] =>
      let H := fresh "Hi" in
      destruct (sigint E n) eqn:H; cbn
  end.

Ltac quiet_events :=
  repeat (apply Forall_cons; [split; reflexivity|]); apply Forall_nil.

(** An exchange opens nothing, closes nothing and leaves [dev] alone. *)
Lemma read_temperature_quiet (E : env) (h : handle) (dev : option handle) (n : nat) :
  let '(t, dev', _) := run E (read_temperature h) dev n in
  dev' = dev /\ quiet t.
Proof.
  unfold read_temperature. cbn.
  ask E; [|split; [reflexivity|quiet_events]].
  destruct (a <=? 0); cbn; [split; [reflexivity|quiet_events]|].
  ask E; [split; [reflexivity|quiet_events]|].
  ask E; [|split; [reflexivity|quiet_events]].
  destruct a0 as [|b data']; cbn; [split; [reflexivity|quiet_events]|].
  destruct (decode_temp_from_report _); cbn; split; try reflexivity; quiet_events.
Qed.

(** ** Reporting a reading *)



(** A reply that decodes to 127.0 is printed on the warning line with its
    value as decoded. *)
Example implausible_127 :
  fst (fst (run env_hot loop_body (Some 1%nat) 0))
  = [EvHid (Write 1%nat command_frame) (Returns 64);
     EvSleep 100 false;
     EvHid (Read 1%nat 64 1000) (Returns reply_127);
     EvPrint (Implausible 127 reply_127);
     EvSleep 1000 false]
  /\ line_text (Implausible 127 reply_127)
     = Some "[WARN] Unplausibler Wert: 127.00 °C   RAW=[128, 2, 127, 0, 78, 32, 0, 0]"
  /\ line_text (Reading 25 reply_25)
     = Some "🌡   25.00 °C   RAW=[128, 2, 25, 0, 78, 32, 0, 0]".
Proof. repeat split; vm_compute; reflexivity. Qed.

(** ** Recovery from a failed turn *)



(** C2, as amended: when the reply of a turn has one to three bytes and no
    interrupt arrives, the decoder's error is caught by the second clause,
    the one for any [Exception] that is not an [OSError]: the turn prints
    the error as unexpected, makes one close attempt on the handle, forgets
    the handle and sleeps two seconds, not one, before the loop goes on
    without a handle. *)
Theorem decode_error_recovery
  (E : env) (h : handle) (n : nat) (written : Z) (data : list byte) :
  no_interrupt E ->
  answer E _ (Write h command_frame) n = Returns written ->
  0 < written ->
  answer E _ (Read h 64 1000) (S (S n)) = Returns data ->
  data <> [] ->
  (List.length data < 4)%nat ->
  let e := ValueError ("Antwort zu kurz: " ++ repr_list data) in
  let rc := answer E _ (Close h) (S (n + 3)) in
  let t := [EvHid (Write h command_frame) (Returns written);
            EvSleep 100 false;
            EvHid (Read h 64 1000) (Returns data);
            EvPrint (ErrorUnexpected e)]
           ++ close_events h rc ++ [EvSleep 2000 false] in
  decode_temp_from_report (firstn 8 data) = Raises e
  /\ backoff e = 2000
  /\ run E loop_body (Some h) n = (t, None, Returns tt)
  /\ closes t = 1%nat
  /\ sleeps t = [100; 2000]
  /\ (forall turns,
        main_loop E (S turns) (Some h) n
        = let '(t', o) := main_loop E turns None (n + List.length t) in
          (t ++ t', o)).
Proof.
  intros Hni Hw Hpos Hr Hne Hlen e rc t.
  assert (H8 : firstn 8 data = data) by (apply firstn_all2; lia).
  assert (Hd : decode_temp_from_report (firstn 8 data) = Raises e).
  { rewrite H8. destruct (decode_cases data) as [[_ Hd]|[Hl _]]; [exact Hd|lia]. }
  assert (Hrun : run E (read_temperature h) (Some h) n
                 = ([EvHid (Write h command_frame) (Returns written);
                     EvSleep 100 false;
                     EvHid (Read h 64 1000) (Returns data)],
                    Some h, Raises e)).
  { rewrite (run_read_temperature E h (Some h) n written data Hw
               (proj1 Hni (S n)) Hr).
    replace (written <=? 0) with false by (symmetry; apply Z.leb_gt; exact Hpos).
    destruct data as [|b data']; [congruence|]. now rewrite Hd. }
  pose proof (run_measure_step_raises E h _ _ n _ e Hni Hrun eq_refl) as Hstep.
  rewrite <- run_loop_body_connected in Hstep.
  split; [exact Hd|]. split; [reflexivity|]. split; [exact Hstep|].
  split; [|split].
  - unfold t. rewrite !closes_app, closes_close_events. reflexivity.
  - unfold t, rc. now destruct (answer E unit (Close h) (S (n + 3))).
  - intros turns. apply (main_loop_goes_on E turns _ _ n _ tt Hstep).
Qed.

Lemma decode_error_recovery_witness :
  no_interrupt env_short_reply
  /\ answer env_short_reply _ (Write 1%nat command_frame) 0 = Returns 64
  /\ 0 < 64
  /\ answer env_short_reply _ (Read 1%nat 64 1000) 2 = Returns [x80; x02; x19]
  /\ [x80; x02; x19] <> []
  /\ (List.length [x80; x02; x19] < 4)%nat
  /\ run env_short_reply loop_body (Some 1%nat) 0
     = ([EvHid (Write 1%nat command_frame) (Returns 64);
         EvSleep 100 false;
         EvHid (Read 1%nat 64 1000) (Returns [x80; x02; x19]);
         EvPrint (ErrorUnexpected (ValueError "Antwort zu kurz: [128, 2, 25]"));
         EvHid (Close 1%nat) (Returns tt);
         EvPrint InfoClosed;
         EvSleep 2000 false],
        None, Returns tt).
Proof.
  assert (Hni : no_interrupt env_short_reply).
  { split; [reflexivity|]. intros R c n. destruct c; discriminate. }
  assert (Hne : [x80; x02; x19] <> []) by discriminate.
  assert (Hlen : (List.length [x80; x02; x19] < 4)%nat) by (cbn; lia).
  split; [exact Hni|]. split; [reflexivity|]. split; [lia|].
  split; [reflexivity|]. split; [exact Hne|]. split; [exact Hlen|].
  destruct (decode_error_recovery env_short_reply 1%nat 0%nat 64 [x80; x02; x19]
              Hni eq_refl eq_refl eq_refl Hne Hlen) as (_ & _ & Hrun & _).
  exact Hrun.
Defined.

(** C2, as stated, fails: on a three-byte reply the turn raises the
    decoder's error, and the one backoff it sleeps is 2000 ms; no sleep of
    1000 ms occurs in it. *)
Lemma decode_error_backoff_is_not_1s :
  let '(t, _, _) := run env_short_reply loop_body (Some 1%nat) 0 in
  snd (run env_short_reply (read_temperature 1%nat) (Some 1%nat) 0)
  = Raises (ValueError "Antwort zu kurz: [128, 2, 25]")
  /\ sleeps t = [100; 2000]
  /\ ~ In 1000 (sleeps t).
Proof.
  vm_compute. split; [reflexivity|]. split; [reflexivity|].
  intros [H|[H|[]]]; discriminate.
Qed.

(** ** A failing open *)

(** Whatever the host, when the scan finds the sensor interface and opening
    it raises, [main] is left during that very turn: with the exception, if
    it is an [Exception], since no clause of the outer [try] matches it. *)
Lemma open_error_leaves_main
  (E : env) (turns n : nat) (devices : list descriptor) (d : descriptor) (e : exn) :
  answer E _ (Enumerate VENDOR_ID PRODUCT_ID) (S n) = Returns devices ->
  find (fun d => (usage_page d =? USAGE_PAGE_SENSOR) && (usage d =? USAGE_SENSOR))
       devices = Some d ->
  answer E _ (OpenPath (path d)) (S (S (S n))) = Raises e ->
  is_Exception e = true ->
  main_loop E (S turns) None n
  = ([EvPrint InfoSearching;
      EvHid (Enumerate VENDOR_ID PRODUCT_ID) (Returns devices);
      EvPrint (InfoUsingDevice d);
      EvHid (OpenPath (path d)) (Raises e)],
     Left (Raises e)).
Proof.
  intros Hen Hfind Hopen He.
  assert (Hstep : run E loop_body None n
                  = ([EvPrint InfoSearching;
                      EvHid (Enumerate VENDOR_ID PRODUCT_ID) (Returns devices);
                      EvPrint (InfoUsingDevice d);
                      EvHid (OpenPath (path d)) (Raises e)],
                     None, Raises e)).
  { rewrite run_loop_body_disconnected. unfold connect_step, open_temper.
    cbn [bind print hid run]. rewrite Hen. cbn [bind].
    rewrite open_temper_scan_find, Hfind.
    cbn [bind print hid run]. rewrite Hopen. reflexivity. }
  rewrite (main_loop_leaves E turns _ _ n _ e Hstep).
  unfold main_exit. destruct e; try discriminate; reflexivity.
Qed.

(** C1: on a host whose sensor cannot be opened, [main] does not keep
    searching: the first turn finds the sensor, the open raises, and [main]
    is left with that exception after four events, however many turns it is
    given. *)
Theorem open_error_ends_main (turns : nat) :
  main env_open_fails (S turns)
  = ([EvPrint InfoSearching;
      EvHid (Enumerate VENDOR_ID PRODUCT_ID) (Returns [keyboard; sensor]);
      EvPrint (InfoUsingDevice sensor);
      EvHid (OpenPath (path sensor)) (Raises (OSError "open failed"))],
     Left (Raises (OSError "open failed"))).
Proof.
  unfold main.
  apply (open_error_leaves_main env_open_fails turns 0 [keyboard; sensor] sensor);
    reflexivity.
Qed.

(** ** Shutdown on an interrupt *)

(** C10: when a turn is ended by an interrupt, [main] prints that it was
    stopped, makes exactly one close attempt when [dev] holds a handle and
    none when it holds none, and returns normally whether the close
    returned or raised an [Exception]. *)
Theorem interrupt_shutdown
  (E : env) (turns : nat) (dev dev1 : option handle) (n : nat) (t : trace) :
  run E loop_body dev n = (t, dev1, Raises KeyboardInterrupt) ->
  (forall h, dev1 = Some h ->
     answer E _ (Close h) (S (n + List.length t)) <> Raises KeyboardInterrupt) ->
  let t' := match dev1 with
            | Some h => close_events h (answer E _ (Close h) (S (n + List.length t)))
            | None => []
            end in
  main_loop E (S turns) dev n = (t ++ EvPrint InfoInterrupted :: t', Left (Returns tt))
  /\ closes t' = List.length (handles_of dev1)
  /\ (dev1 = None -> t' = []).
Proof.
  intros Hstep Hclose t'.
  rewrite (main_loop_leaves E turns _ _ n _ _ Hstep).
  unfold main_exit. cbn [bind print get_dev run].
  destruct dev1 as [h|]; cbn [bind run].
  - specialize (Hclose h eq_refl).
    assert (Hc : run E (close_quietly h) (Some h) (S (n + List.length t))
                 = (t', Some h, Returns tt)).
    { rewrite run_close_quietly. unfold t'.
      destruct (answer E unit (Close h) (S (n + List.length t))) as [u|e];
        [reflexivity|].
      destruct e; try reflexivity. congruence. }
    rewrite (run_bind_returns E (close_quietly h) (fun _ => Ret tt)
               _ _ _ _ _ _ _ _ Hc eq_refl).
    cbn [emit]. rewrite app_nil_r. split; [reflexivity|].
    split; [apply closes_close_events|discriminate].
  - cbn. repeat split.
Qed.

Lemma interrupt_shutdown_witness :
  run (env_interrupt 2) loop_body (Some 1%nat) 0
  = ([EvHid (Write 1%nat command_frame) (Returns 64);
      EvSleep 100 false;
      EvHid (Read 1%nat 64 1000) (Returns reply_25);
      EvPrint (Reading 25 reply_25);
      EvSleep 1000 true],
     Some 1%nat, Raises KeyboardInterrupt)
  /\ (forall h, Some 1%nat = Some h ->
        answer (env_interrupt 2) _ (Close h) 6 <> Raises KeyboardInterrupt)
  /\ main_loop (env_interrupt 2) 1 (Some 1%nat) 0
     = ([EvHid (Write 1%nat command_frame) (Returns 64);
         EvSleep 100 false;
         EvHid (Read 1%nat 64 1000) (Returns reply_25);
         EvPrint (Reading 25 reply_25);
         EvSleep 1000 true;
         EvPrint InfoInterrupted;
         EvHid (Close 1%nat) (Raises (OSError "close failed"))],
        Left (Returns tt)).
Proof.
  assert (Hstep : run (env_interrupt 2) loop_body (Some 1%nat) 0
                  = ([EvHid (Write 1%nat command_frame) (Returns 64);
                      EvSleep 100 false;
                      EvHid (Read 1%nat 64 1000) (Returns reply_25);
                      EvPrint (Reading 25 reply_25);
                      EvSleep 1000 true],
                     Some 1%nat, Raises KeyboardInterrupt))
    by (vm_compute; reflexivity).
  assert (Hclose : forall h, Some 1%nat = Some h ->
            answer (env_interrupt 2) _ (Close h) 6 <> Raises KeyboardInterrupt)
    by (intros h _; discriminate).
  split; [exact Hstep|]. split; [exact Hclose|].
  destruct (interrupt_shutdown (env_interrupt 2) 0 (Some 1%nat) (Some 1%nat) 0 _
              Hstep Hclose) as [Hmain _].
  exact Hmain.
Defined.

(** An interrupt while no sensor is plugged in: nothing is closed. *)
Example interrupt_while_searching :
  main (env_absent_interrupt 0) 5
  = ([EvPrint InfoSearching;
      EvHid (Enumerate VENDOR_ID PRODUCT_ID) (Returns [keyboard]);
      EvPrint WarnNotFound;
      EvSleep 2000 true;
      EvPrint InfoInterrupted],
     Left (Returns tt)).
Proof. vm_compute. reflexivity. Qed.

(** ** At most one handle *)

Lemma disciplined_length (hs : list handle) (t : trace) :
  disciplined hs t -> (List.length hs <= 1)%nat.
Proof. destruct t; intros [H _]; exact H. Qed.

Lemma disciplined_app (hs : list handle) (t t' : trace) :
  disciplined hs t -> disciplined (held hs t) t' -> disciplined hs (t ++ t').
Proof.
  revert hs. induction t as [|ev t IH]; intros hs Ht Ht'.
  - exact Ht'.
  - destruct Ht as (Hl & Ho & Ht). cbn [app disciplined].
    split; [exact Hl|]. split; [exact Ho|].
    apply IH; [exact Ht|]. exact Ht'.
Qed.

(** The discipline of a whole trace is the bound at each of its points. *)
Lemma disciplined_prefix (t1 t2 : trace) :
  forall hs, disciplined hs (t1 ++ t2) ->
    (List.length (held hs t1) <= 1)%nat
    /\ (forall ev t3, t2 = ev :: t3 -> opened ev <> None -> held hs t1 = []).
Proof.
  induction t1 as [|ev1 t1 IH]; intros hs H.
  - cbn [app held] in *. split; [exact (disciplined_length _ _ H)|].
    intros ev t3 -> Ho. destruct H as (_ & H & _). exact (H Ho).
  - destruct H as (_ & _ & H). exact (IH _ H).
Qed.

Lemma held_no_open_length (hs : list handle) (ev : event) :
  opened ev = None -> (List.length (held hs [ev]) <= List.length hs)%nat.
Proof.
  intros Ho. cbn [held]. rewrite Ho.
  destruct (close_attempt ev) as [h|]; [apply remove_length_le|lia].
Qed.

(** A trace that opens nothing keeps the discipline. *)
Lemma disciplined_no_open (t : trace) :
  forall hs, (List.length hs <= 1)%nat ->
    Forall (fun ev => opened ev = None) t -> disciplined hs t.
Proof.
  induction t as [|ev t IH]; intros hs Hl Ht.
  - now split.
  - inversion Ht as [|? ? Ho Ht']; subst.
    split; [exact Hl|]. split; [congruence|].
    apply IH; [|exact Ht'].
    pose proof (held_no_open_length hs ev Ho). lia.
Qed.

Lemma quiet_no_open (t : trace) :
  quiet t -> Forall (fun ev => opened ev = None) t.
Proof. apply Forall_impl. now intros ev [Ho _]. Qed.

Lemma held_close_events (h : handle) (rc : result unit) :
  held [h] (close_events h rc) = [].
Proof.
  unfold close_events.
  destruct rc; cbn [held opened close_attempt remove];
    destruct (Nat.eq_dec h h) as [_|Hne]; try reflexivity; now elim Hne.
Qed.

Lemma close_events_no_open (h : handle) (rc : result unit) :
  Forall (fun ev => opened ev = None) (close_events h rc).
Proof. destruct rc; repeat constructor. Qed.

Section Discipline.

Variable E : env.

Ltac no_open_events :=
  repeat (apply Forall_cons; [reflexivity|]); try apply Forall_nil.

(** The clause of a failed turn: the error line, one close attempt, and
    then the backoff unless an interrupt ended the close. *)
Lemma run_recovery (h : handle) (l : line) (ms : Z) (dev : option handle) (n : nat) :
  exists tail dev' r,
    run E (print l ;; close_quietly h ;; set_dev None ;; sleep ms) dev n
    = (EvPrint l :: close_events h (answer E _ (Close h) (S n)) ++ tail, dev', r)
    /\ quiet tail
    /\ (forall u, r = Returns u -> dev' = None).
Proof.
  unfold close_quietly, close_events. cbn.
  destruct (answer E unit (Close h) (S n)) as [u|e]; cbn.
  - destruct (sigint E _); cbn; eexists _, _, _;
      (split; [reflexivity|]); split; try quiet_events;
      intros; try reflexivity; discriminate.
  - destruct e; cbn; try destruct (sigint E _); cbn; eexists _, _, _;
      (split; [reflexivity|]); split; try quiet_events;
      intros; try reflexivity; discriminate.
Qed.

Lemma main_exit_no_open (e : exn) (dev : option handle) (n : nat) :
  Forall (fun ev => opened ev = None) (fst (fst (run E (main_exit e) dev n))).
Proof.
  unfold main_exit, close_quietly.
  destruct e, dev as [h|]; cbn; try ask E; try destruct e; cbn;
    no_open_events.
Qed.

Lemma connect_step_ok (n : nat) : step_ok None (run E connect_step None n).
Proof.
  unfold connect_step, open_temper. cbn [bind print hid run].
  destruct (answer E _ (Enumerate VENDOR_ID PRODUCT_ID) (S n)) as [devices|e];
    cbn [bind].
  - rewrite open_temper_scan_find.
    destruct (find _ devices) as [d|]; cbn.
    + ask E; [ask E|]; repeat split; cbn; try lia; try congruence.
    + ask E; repeat split; cbn; try lia; try congruence.
  - cbn. repeat split; cbn; try lia; try congruence.
Qed.

Lemma measure_step_ok (h : handle) (n : nat) :
  step_ok (Some h) (run E (measure_step h) (Some h) n).
Proof.
  pose proof (read_temperature_quiet E h (Some h) n) as Hq.
  destruct (run E (read_temperature h) (Some h) n) as [[t0 d0] r0] eqn:Hrt.
  destruct Hq as [-> Hq].
  assert (Hone : (List.length (handles_of (Some h)) <= 1)%nat) by (cbn; lia).
  destruct r0 as [[temp_c raw]|e].
  - rewrite (run_measure_step_returns E h _ _ n _ temp_c raw Hrt).
    assert (Hq' : quiet (t0 ++ [EvPrint (report temp_c raw);
                                EvSleep 1000 (sigint E (S (n + List.length t0)))])).
    { apply Forall_app. split; [exact Hq|quiet_events]. }
    split.
    + apply disciplined_no_open; [exact Hone|]. now apply quiet_no_open.
    + rewrite (held_quiet _ _ Hq'). destruct (sigint E _); [cbn; lia|reflexivity].
  - unfold measure_step.
    rewrite (run_try_raises E _ _ _ _ _ _ _ (run_bind_raises E _ _ _ _ _ _ _ Hrt)).
    assert (Hrec : forall l ms,
      step_ok (Some h)
        (let '(t', dev2, r) :=
           run E (print l ;; close_quietly h ;; set_dev None ;; sleep ms)
               (Some h) (n + List.length t0) in
         (t0 ++ t', dev2, r))).
    { intros l ms.
      destruct (run_recovery h l ms (Some h) (n + List.length t0))
        as (tail & dev' & r & -> & Htail & Hdev).
      set (rc := answer E unit (Close h) (S (n + List.length t0))).
      split.
      - apply disciplined_no_open; [exact Hone|].
        apply Forall_app. split; [now apply quiet_no_open|].
        apply Forall_cons; [reflexivity|].
        apply Forall_app. split; [apply close_events_no_open|].
        now apply quiet_no_open.
      - assert (Hheld : held (handles_of (Some h))
                             (t0 ++ EvPrint l :: close_events h rc ++ tail) = []).
        { rewrite held_app, (held_quiet _ _ Hq).
          change (EvPrint l :: close_events h rc ++ tail)
            with ([EvPrint l] ++ close_events h rc ++ tail).
          rewrite !held_app. cbn [held opened close_attempt handles_of].
          now rewrite held_close_events, (held_quiet _ _ Htail). }
        rewrite Hheld. destruct r as [u|e'].
        + now rewrite (Hdev u eq_refl).
        + cbn. lia. }
    destruct e; cbn [is_OSError is_Exception]; try apply Hrec.
    split.
    + apply disciplined_no_open; [exact Hone|]. now apply quiet_no_open.
    + rewrite (held_quiet _ _ Hq). cbn. lia.
Qed.

Lemma loop_body_ok (dev : option handle) (n : nat) :
  step_ok dev (run E loop_body dev n).
Proof.
  destruct dev as [h|].
  - rewrite run_loop_body_connected. apply measure_step_ok.
  - rewrite run_loop_body_disconnected. apply connect_step_ok.
Qed.

Lemma main_loop_disciplined (turns : nat) :
  forall dev n, disciplined (handles_of dev) (fst (main_loop E turns dev n)).
Proof.
  induction turns as [|turns IH]; intros dev n.
  - cbn. split; [destruct dev; cbn; lia|exact I].
  - pose proof (loop_body_ok dev n) as Hstep.
    cbn [main_loop].
    destruct (run E loop_body dev n) as [[t dev'] r].
    destruct Hstep as [Ht Hr]. destruct r as [u|e].
    + specialize (IH dev' (n + List.length t)%nat).
      destruct (main_loop E turns dev' (n + List.length t)) as [t' o].
      cbn [fst] in *. apply disciplined_app; [exact Ht|].
      now rewrite Hr.
    + pose proof (main_exit_no_open e dev' (n + List.length t)) as Hx.
      destruct (run E (main_exit e) dev' (n + List.length t)) as [[t' d''] r'].
      cbn [fst] in *. apply disciplined_app; [exact Ht|].
      now apply disciplined_no_open.
Qed.

End Discipline.

(** C9: at each point of a run of [main] at most one handle is out (opened
    and not yet given to a close attempt), and a handle is opened only at a
    point where none is out: the close attempt on the handle before it has
    been made by then. *)
Theorem at_most_one_handle (E : env) (turns : nat) (t1 t2 : trace) :
  fst (main E turns) = t1 ++ t2 ->
  (List.length (held [] t1) <= 1)%nat
  /\ (forall ev t3, t2 = ev :: t3 -> opened ev <> None -> held [] t1 = []).
Proof.
  intros Ht. apply disciplined_prefix. rewrite <- Ht.
  apply (main_loop_disciplined E turns None 0).
Qed.

Lemma at_most_one_handle_witness :
  let t1 := [EvPrint InfoSearching;
             EvHid (Enumerate VENDOR_ID PRODUCT_ID) (Returns [sensor]);
             EvPrint (InfoUsingDevice sensor);
             EvHid (OpenPath (path sensor)) (Returns 1%nat);
             EvHid (SetNonblocking 1%nat false) (Returns tt);
             EvPrint InfoOpened;
             EvHid (Write 1%nat command_frame) (Returns (-1));
             EvPrint (ErrorRead WriteError);
             EvHid (Close 1%nat) (Returns tt);
             EvPrint InfoClosed;
             EvSleep 1000 false;
             EvPrint InfoSearching;
             EvHid (Enumerate VENDOR_ID PRODUCT_ID) (Returns [sensor]);
             EvPrint (InfoUsingDevice sensor)] in
  let t2 := [EvHid (OpenPath (path sensor)) (Returns 1%nat);
             EvHid (SetNonblocking 1%nat false) (Returns tt);
             EvPrint InfoOpened] in
  fst (main env_write_fails 3) = t1 ++ t2
  /\ (List.length (held [] t1) <= 1)%nat
  /\ held [] t1 = [].
Proof.
  intros t1 t2.
  assert (Ht : fst (main env_write_fails 3) = t1 ++ t2) by (vm_compute; reflexivity).
  split; [exact Ht|].
  destruct (at_most_one_handle env_write_fails 3 t1 t2 Ht) as [Hone Hopen].
  split; [exact Hone|].
  apply (Hopen _ _ eq_refl). discriminate.
Defined.

(** * Further properties of the code *)

(** ** The decoder on arbitrary reports *)

(** On each 16-bit [raw]: the decoded value lies in [-128, 128), and it is
    inside the plausibility window exactly when [raw] lies in
    [-10240, 32000]; checked on all 65536 values. *)
Lemma window_table :
  forallb (fun raw =>
    let c := (float_of_int raw / 256 * SCALE + OFFSET)%float in
    ((-128) <=? c)%float && (c <? 128)%float
    && Bool.eqb (plausible c) ((-10240 <=? raw) && (raw <=? 32000)))
    (zrange (- 2 ^ 15) 65536) = true.
Proof. vm_compute. reflexivity. Qed.

Lemma window_facts (raw : Z) :
  - 2 ^ 15 <= raw < 2 ^ 15 ->
  let c := (float_of_int raw / 256 * SCALE + OFFSET)%float in
  ((-128) <=? c)%float = true /\ (c <? 128)%float = true
  /\ (plausible c = true <-> -10240 <= raw <= 32000).
Proof.
  intros Hr c. pose proof window_table as T.
  rewrite forallb_forall in T.
  assert (Hin : In raw (zrange (- 2 ^ 15) 65536)) by (apply zrange_In; lia).
  specialize (T raw Hin). cbv zeta in T. fold c in T.
  rewrite !andb_true_iff in T. destruct T as [[T1 T2] T3].
  apply Bool.eqb_prop in T3.
  split; [exact T1|]. split; [exact T2|].
  rewrite T3, andb_true_iff, !Z.leb_le. reflexivity.
Qed.



(** X3: the decoded value of a report is inside the plausibility window
    exactly when the 16-bit field lies in [-10240, 32000]; every field
    above 32000 or below -10240 goes to the warning line. *)
Theorem plausible_iff_raw_in_window (b0 b1 b2 b3 : byte) (rest : list byte) :
  exists celsius,
    decode_temp_from_report (b0 :: b1 :: b2 :: b3 :: rest) = Returns celsius
    /\ (plausible celsius = true
        <-> -10240 <= signed_be16 (byte_val b2) (byte_val b3) <= 32000)
    /\ forall raw : list byte,
         report celsius raw
         = if (-10240 <=? signed_be16 (byte_val b2) (byte_val b3))
              && (signed_be16 (byte_val b2) (byte_val b3) <=? 32000)
           then Reading celsius raw else Implausible celsius raw.
Proof.
  pose proof (signed_be16_range _ _ (byte_val_range b2) (byte_val_range b3)) as Hr.
  destruct (window_facts _ Hr) as (_ & _ & Hw).
  set (r := signed_be16 (byte_val b2) (byte_val b3)) in *.
  set (c := (float_of_int r / 256 * SCALE + OFFSET)%float) in *.
  exists c. split; [apply decode_long|]. split; [exact Hw|].
  intros raw.
  change (report c raw) with (if plausible c then Reading c raw else Implausible c raw).
  destruct (plausible c); destruct ((-10240 <=? r) && (r <=? 32000)) eqn:Hb;
    try reflexivity; exfalso.
  - rewrite andb_false_iff, !Z.leb_gt in Hb. destruct Hw as [Hw _].
    specialize (Hw eq_refl). lia.
  - rewrite andb_true_iff, !Z.leb_le in Hb. destruct Hw as [_ Hw].
    specialize (Hw Hb). discriminate.
Qed.

Lemma byte_val_inj (b b' : byte) : byte_val b = byte_val b' -> b = b'.
Proof.
  unfold byte_val. intros H. apply N2Z.inj in H.
  pose proof (Byte.of_to_N b) as Hb. rewrite H, Byte.of_to_N in Hb.
  now injection Hb.
Qed.

Lemma signed_be16_inj (hi lo hi' lo' : Z) :
  0 <= hi < 256 -> 0 <= lo < 256 -> 0 <= hi' < 256 -> 0 <= lo' < 256 ->
  signed_be16 hi lo = signed_be16 hi' lo' -> hi = hi' /\ lo = lo'.
Proof.
  intros Hh Hl Hh' Hl'. unfold signed_be16. cbv zeta.
  destruct (Z.ltb_spec (hi * 256 + lo) (2 ^ 15));
    destruct (Z.ltb_spec (hi' * 256 + lo') (2 ^ 15)); lia.
Qed.

Lemma represents_inj (x : float) (raw raw' : Z) :
  represents x (Qmake raw 256) = true ->
  represents x (Qmake raw' 256) = true ->
  raw = raw'.
Proof.
  unfold represents. destruct (float_value x) as [v|]; [|discriminate].
  intros H H'. apply Qeq_bool_eq in H, H'.
  rewrite H in H'. unfold Qeq in H'. cbn in H'. lia.
Qed.

(** X2: two reports of four bytes or more decode to the same value exactly
    when their bytes 2 and 3 are the same: no two 16-bit fields give one
    temperature, and no other byte of the report has a part in it. *)
Theorem decode_depends_on_bytes_2_3 (data data' : list byte) :
  (4 <= List.length data)%nat ->
  (4 <= List.length data')%nat ->
  decode_temp_from_report data = decode_temp_from_report data'
  <-> slice 2 4 data = slice 2 4 data'.
Proof.
  intros Hl Hl'.
  destruct (four_or_more data Hl) as (b0 & b1 & b2 & b3 & rest & ->).
  destruct (four_or_more data' Hl') as (c0 & c1 & c2 & c3 & rest' & ->).
  rewrite !slice_2_4, !decode_long.
  pose proof (signed_be16_range _ _ (byte_val_range b2) (byte_val_range b3)) as Hr.
  pose proof (signed_be16_range _ _ (byte_val_range c2) (byte_val_range c3)) as Hr'.
  split.
  - intros H. injection H as H.
    destruct (celsius_exact _ Hr) as [Hq Hid].
    destruct (celsius_exact _ Hr') as [Hq' Hid'].
    rewrite Hid, Hid' in H. rewrite H in Hq.
    pose proof (represents_inj _ _ _ Hq Hq') as Heq.
    apply signed_be16_inj in Heq; try apply byte_val_range.
    destruct Heq as [H2 H3].
    now rewrite (byte_val_inj _ _ H2), (byte_val_inj _ _ H3).
  - intros H. injection H as -> ->. reflexivity.
Qed.

Lemma decode_depends_on_bytes_2_3_witness :
  (4 <= List.length reply_25)%nat
  /\ (4 <= List.length [x00; x00; x19; x00])%nat
  /\ decode_temp_from_report reply_25
     = decode_temp_from_report [x00; x00; x19; x00].
Proof.
  assert (H : (4 <= List.length reply_25)%nat) by (cbn; lia).
  assert (H' : (4 <= List.length [x00; x00; x19; x00])%nat) by (cbn; lia).
  split; [exact H|]. split; [exact H'|].
  apply (decode_depends_on_bytes_2_3 _ _ H H'). reflexivity.
Defined.

(** ** The exchange under any behaviour of the device *)

(** X4: whatever the device and the binding answer, an exchange makes one
    write of the command frame and nothing before it; it reads at most
    once, and only after a write that took at least one byte and a pause of
    100 ms that ran to its end; it never writes or reads a second time.  An
    exception raised by the write or by the read is the exception of the
    exchange. *)
Theorem exchange_shape (E : env) (h : handle) (dev : option handle) (n : nat) :
  let w := answer E _ (Write h command_frame) n in
  let rd := answer E _ (Read h 64 1000) (S (S n)) in
  let W := EvHid (Write h command_frame) w in
  let '(t, dev', r) := run E (read_temperature h) dev n in
  dev' = dev
  /\ ((t = [W] /\ (forall v, w = Returns v -> v <= 0) /\ exists e, r = Raises e)
      \/ (exists v, w = Returns v /\ 0 < v
                    /\ t = [W; EvSleep 100 true] /\ r = Raises KeyboardInterrupt)
      \/ (exists v, w = Returns v /\ 0 < v
                    /\ t = [W; EvSleep 100 false; EvHid (Read h 64 1000) rd]))
  /\ (forall e, w = Raises e -> r = Raises e)
  /\ (forall e, rd = Raises e -> List.length t = 3%nat -> r = Raises e).
Proof.
  unfold read_temperature.
  change ([x00; x01; x80; x33; x01; x00; x00; x00; x00]
          ++ repeat x00 (64 - List.length [x00; x01; x80; x33; x01; x00; x00; x00; x00]))
    with command_frame.
  cbn [bind hid run].
  destruct (answer E Z (Write h command_frame) n) as [v|e] eqn:Hw; cbn.
  - destruct (Z.leb_spec v 0) as [Hle|Hgt]; cbn.
    + split; [reflexivity|]. split; [|split; intros; discriminate].
      left. split; [reflexivity|]. split; [|eauto].
      intros v' Hv. injection Hv as <-. exact Hle.
    + destruct (sigint E (S n)); cbn.
      * split; [reflexivity|]. split; [|split; intros; discriminate].
        right. left. exists v. now repeat split.
      * destruct (answer E (list byte) (Read h 64 1000) (S (S n))) as [data|e]; cbn.
        -- destruct data as [|b data']; cbn;
             [|destruct (decode_temp_from_report _); cbn];
             (split; [reflexivity|]); (split; [|split; intros; discriminate]);
             right; right; exists v; now repeat split.
        -- split; [reflexivity|]. split; [|split; intros; congruence].
           right. right. exists v. now repeat split.
  - split; [reflexivity|]. split; [|split; intros; try congruence; discriminate].
    left. split; [reflexivity|]. split; [intros; discriminate|eauto].
Qed.

(** X5: a reading that [read_temperature] returns comes from a write that
    took at least one byte, a full pause and a read that returned data; the
    raw report beside it is the first eight bytes of that data, has four to
    eight bytes, and decodes to the value returned. *)
Theorem reading_comes_with_its_report
  (E : env) (h : handle) (dev dev' : option handle) (n : nat) (t : trace)
  (temp_c : float) (raw : list byte) :
  run E (read_temperature h) dev n = (t, dev', Returns (temp_c, raw)) ->
  exists v data,
    0 < v
    /\ t = [EvHid (Write h command_frame) (Returns v);
            EvSleep 100 false;
            EvHid (Read h 64 1000) (Returns data)]
    /\ raw = firstn 8 data
    /\ (4 <= List.length raw <= 8)%nat
    /\ decode_temp_from_report raw = Returns temp_c.
Proof.
  unfold read_temperature.
  change ([x00; x01; x80; x33; x01; x00; x00; x00; x00]
          ++ repeat x00 (64 - List.length [x00; x01; x80; x33; x01; x00; x00; x00; x00]))
    with command_frame.
  cbn [bind hid run].
  destruct (answer E Z (Write h command_frame) n) as [v|e];
    cbn [bind hid sleep run emit]; [|discriminate].
  destruct (Z.leb_spec v 0) as [Hle|Hgt];
    cbn [bind hid sleep run emit]; [discriminate|].
  destruct (sigint E (S n)); cbn [bind hid sleep run emit]; [discriminate|].
  destruct (answer E (list byte) (Read h 64 1000) (S (S n))) as [data|e];
    cbn [bind hid sleep run emit]; [|discriminate].
  destruct data as [|b data']; [discriminate|].
  destruct (decode_cases (firstn 8 (b :: data'))) as [[_ Hd]|[Hl [c Hd]]];
    rewrite Hd; cbn [bind lift run emit]; [discriminate|].
  intros H. injection H as <- <- <- <-.
  exists v, (b :: data'). split; [exact Hgt|]. split; [reflexivity|].
  split; [reflexivity|]. split; [|exact Hd].
  split; [exact Hl|].
  pose proof (length_firstn 8 (b :: data')) as Hf.
  etransitivity; [apply Nat.eq_le_incl; exact Hf|]. apply Nat.le_min_l.
Qed.

Lemma reading_comes_with_its_report_witness :
  run env_healthy (read_temperature 1%nat) (Some 1%nat) 0
  = ([EvHid (Write 1%nat command_frame) (Returns 64);
      EvSleep 100 false;
      EvHid (Read 1%nat 64 1000) (Returns reply_25)],
     Some 1%nat, Returns (25%float, reply_25))
  /\ decode_temp_from_report reply_25 = Returns 25%float.
Proof.
  assert (H : run env_healthy (read_temperature 1%nat) (Some 1%nat) 0
              = ([EvHid (Write 1%nat command_frame) (Returns 64);
                  EvSleep 100 false;
                  EvHid (Read 1%nat 64 1000) (Returns reply_25)],
                 Some 1%nat, Returns (25%float, reply_25)))
    by (vm_compute; reflexivity).
  split; [exact H|].
  destruct (reading_comes_with_its_report _ _ _ _ _ _ _ _ H)
    as (v & data & _ & _ & _ & _ & Hd).
  exact Hd.
Defined.

(** ** Searching and connecting *)

(** X6: whatever the binding answers, one call of [open_temper] tries to
    open at most one path and closes nothing.  When the open of the first
    sensor interface raises, that exception is the result: the entries
    after it are not tried, sensor interfaces or not.  A handle is returned
    only after its switch to blocking mode has returned. *)
Theorem locator_opens_at_most_once (E : env) (dev : option handle) (n : nat) :
  let '(t, dev', r) := run E open_temper dev n in
  dev' = dev
  /\ (List.length (open_paths t) <= 1)%nat
  /\ closes t = 0%nat
  /\ (forall devices d e,
        answer E _ (Enumerate VENDOR_ID PRODUCT_ID) n = Returns devices ->
        find is_sensor_interface devices = Some d ->
        answer E _ (OpenPath (path d)) (S (S n)) = Raises e ->
        r = Raises e /\ open_paths t = [path d])
  /\ (forall h, r = Returns (Some h) ->
        exists d u,
          In (EvHid (OpenPath (path d)) (Returns h)) t
          /\ In (EvHid (SetNonblocking h false) (Returns u)) t).
Proof.
  unfold open_temper. cbn [bind hid run].
  destruct (answer E _ (Enumerate VENDOR_ID PRODUCT_ID) n) as [devices|e] eqn:Hen;
    cbn [bind].
  - rewrite open_temper_scan_find.
    change (find _ devices) with (find is_sensor_interface devices).
    destruct (find is_sensor_interface devices) as [d|] eqn:Hfind; cbn.
    + destruct (answer E handle (OpenPath (path d)) (S (S n))) as [h|e] eqn:Hop; cbn.
      * destruct (answer E unit (SetNonblocking h false) (S (S (S n)))) as [u|e] eqn:Hnb;
          cbn; repeat split; try lia; intros; try congruence; try discriminate.
        injection H as <-. exists d, u. split; [right; right; now left|].
        right; right; right; now left.
      * repeat split; try lia; intros; try discriminate.
        -- injection H as <-. rewrite H0 in Hfind. injection Hfind as <-.
           congruence.
        -- injection H as <-. rewrite H0 in Hfind. now injection Hfind as <-.
    + repeat split; try lia; intros; try discriminate.
      * injection H as <-. congruence.
      * injection H as <-. congruence.
  - cbn. repeat split; try lia; intros; discriminate.
Qed.

Section Searching.

Variable E : env.

Lemma run_connect_step_absent (n : nat) (devices : list descriptor) :
  answer E _ (Enumerate VENDOR_ID PRODUCT_ID) (S n) = Returns devices ->
  find is_sensor_interface devices = None ->
  run E loop_body None n
  = ([EvPrint InfoSearching;
      EvHid (Enumerate VENDOR_ID PRODUCT_ID) (Returns devices);
      EvPrint WarnNotFound;
      EvSleep 2000 (sigint E (S (S (S n))))],
     None,
     if sigint E (S (S (S n))) then Raises KeyboardInterrupt else Returns tt).
Proof.
  intros Hen Hfind. rewrite run_loop_body_disconnected.
  unfold connect_step, open_temper. cbn [bind print hid run].
  rewrite Hen. cbn [bind]. rewrite open_temper_scan_find.
  change (find _ devices) with (find is_sensor_interface devices).
  rewrite Hfind. cbn. now destruct (sigint E (S (S (S n)))).
Qed.

Lemma run_connect_step_found (n : nat) (devices : list descriptor) (d : descriptor) :
  answer E _ (Enumerate VENDOR_ID PRODUCT_ID) (S n) = Returns devices ->
  find is_sensor_interface devices = Some d ->
  run E loop_body None n
  = match answer E _ (OpenPath (path d)) (S (S (S n))) with
    | Raises e =>
        ([EvPrint InfoSearching;
          EvHid (Enumerate VENDOR_ID PRODUCT_ID) (Returns devices);
          EvPrint (InfoUsingDevice d);
          EvHid (OpenPath (path d)) (Raises e)],
         None, Raises e)
    | Returns h =>
        match answer E _ (SetNonblocking h false) (S (S (S (S n)))) with
        | Raises e =>
            ([EvPrint InfoSearching;
              EvHid (Enumerate VENDOR_ID PRODUCT_ID) (Returns devices);
              EvPrint (InfoUsingDevice d);
              EvHid (OpenPath (path d)) (Returns h);
              EvHid (SetNonblocking h false) (Raises e)],
             None, Raises e)
        | Returns u =>
            ([EvPrint InfoSearching;
              EvHid (Enumerate VENDOR_ID PRODUCT_ID) (Returns devices);
              EvPrint (InfoUsingDevice d);
              EvHid (OpenPath (path d)) (Returns h);
              EvHid (SetNonblocking h false) (Returns u);
              EvPrint InfoOpened],
             Some h, Returns tt)
        end
    end.
Proof.
  intros Hen Hfind. rewrite run_loop_body_disconnected.
  unfold connect_step, open_temper. cbn [bind print hid run].
  rewrite Hen. cbn [bind]. rewrite open_temper_scan_find.
  change (find _ devices) with (find is_sensor_interface devices).
  rewrite Hfind. cbn.
  destruct (answer E handle (OpenPath (path d)) (S (S (S n)))) as [h|e];
    [|reflexivity].
  cbn. now destruct (answer E unit (SetNonblocking h false) (S (S (S (S n))))).
Qed.

End Searching.

(** X7: as long as every enumeration returns and shows no sensor interface,
    and no interrupt arrives, [main] keeps looping without a handle: each
    turn is the search line, the enumeration, the warning and a sleep of
    two seconds; nothing is ever opened. *)
Theorem search_goes_on_while_absent (E : env) :
  (forall n, sigint E n = false) ->
  (forall n, exists devices,
      answer E _ (Enumerate VENDOR_ID PRODUCT_ID) n = Returns devices
      /\ find is_sensor_interface devices = None) ->
  forall turns n, exists t,
    main_loop E turns None n = (t, Looping None)
    /\ open_paths t = []
    /\ sleeps t = repeat 2000 turns
    /\ List.length t = (4 * turns)%nat.
Proof.
  intros Hsig Hen. induction turns as [|turns IH]; intros n.
  - exists []. now repeat split.
  - destruct (Hen (S n)) as (devices & Hd & Hfind).
    pose proof (run_connect_step_absent E n devices Hd Hfind) as Hstep.
    rewrite Hsig in Hstep.
    rewrite (main_loop_goes_on E turns _ _ n _ tt Hstep).
    cbn [List.length].
    destruct (IH (n + 4)%nat) as (t & -> & Ho & Hs & Hl).
    eexists. split; [reflexivity|]. cbn [app open_paths sleeps flat_map].
    fold (open_paths t). fold (sleeps t). rewrite Ho, Hs. cbn [List.length].
    repeat split. lia.
Qed.

Lemma search_goes_on_while_absent_witness :
  (forall n, sigint env_absent n = false)
  /\ (forall n, exists devices,
        answer env_absent _ (Enumerate VENDOR_ID PRODUCT_ID) n = Returns devices
        /\ find is_sensor_interface devices = None)
  /\ exists t, main env_absent 3 = (t, Looping None)
               /\ sleeps t = [2000; 2000; 2000].
Proof.
  assert (Hs : forall n, sigint env_absent n = false) by reflexivity.
  assert (He : forall n, exists devices,
             answer env_absent _ (Enumerate VENDOR_ID PRODUCT_ID) n = Returns devices
             /\ find is_sensor_interface devices = None)
    by (intros n; exists [keyboard]; split; reflexivity).
  split; [exact Hs|]. split; [exact He|].
  destruct (search_goes_on_while_absent env_absent Hs He 3 0)
    as (t & Hm & _ & Hsl & _).
  exists t. split; [exact Hm|exact Hsl].
Defined.

(** ** Turns under any behaviour of the device *)

Section AnyTurn.

Variable E : env.

(** The clause of a failed turn, in full: an interrupt in the close ends
    it there, with [dev] still holding the handle; otherwise the handle is
    forgotten and the backoff follows. *)
Lemma run_recovery_cases (h : handle) (l : line) (ms : Z)
  (dev : option handle) (n : nat) :
  run E (print l ;; close_quietly h ;; set_dev None ;; sleep ms) dev n
  = match answer E _ (Close h) (S n) with
    | Raises KeyboardInterrupt =>
        ([EvPrint l; EvHid (Close h) (Raises KeyboardInterrupt)], dev,
         Raises KeyboardInterrupt)
    | rc =>
        let i := sigint E (List.length (close_events h rc) + S n) in
        (EvPrint l :: close_events h rc ++ [EvSleep ms i], None,
         if i then Raises KeyboardInterrupt else Returns tt)
    end.
Proof.
  unfold close_quietly, close_events. cbn.
  destruct (answer E unit (Close h) (S n)) as [u|e]; cbn.
  - now destruct (sigint E _).
  - destruct e; cbn; try reflexivity; now destruct (sigint E _).
Qed.

(** The end of [main] after an interrupt, with a handle in [dev]. *)
Lemma run_main_exit_interrupt (h : handle) (n : nat) :
  run E (main_exit KeyboardInterrupt) (Some h) n
  = (EvPrint InfoInterrupted :: close_events h (answer E _ (Close h) (S n)),
     Some h,
     match answer E _ (Close h) (S n) with
     | Raises KeyboardInterrupt => Raises KeyboardInterrupt
     | _ => Returns tt
     end).
Proof.
  unfold main_exit, close_quietly, close_events. cbn.
  destruct (answer E unit (Close h) (S n)) as [u|e]; cbn; [reflexivity|].
  now destruct e.
Qed.

(** The end of [main] after an exception [e]: it returns only when [e] is
    the interrupt, and an [Exception] it raises is [e] itself. *)
Lemma main_exit_result (e : exn) (dev : option handle) (n : nat) :
  let '(t, _, r) := run E (main_exit e) dev n in
  match r with
  | Returns _ => e = KeyboardInterrupt /\ In (EvPrint InfoInterrupted) t
  | Raises x => is_Exception x = true -> x = e
  end.
Proof.
  unfold main_exit, close_quietly.
  destruct e, dev as [h|]; cbn;
    try (destruct (answer E unit (Close h) _) as [u|e']; cbn; try destruct e'; cbn);
    try (split; [reflexivity|now left]); try reflexivity; try discriminate.
Qed.

(** An exchange raises the interrupt only when one reached it. *)
Lemma read_temperature_interrupt (h : handle) (dev dev' : option handle)
  (n : nat) (t : trace) :
  run E (read_temperature h) dev n = (t, dev', Raises KeyboardInterrupt) ->
  existsb interrupt_event t = true.
Proof.
  unfold read_temperature. cbn [bind hid run].
  destruct (answer E Z _ n) as [v|e]; cbn [bind hid sleep run emit].
  - destruct (v <=? 0); cbn [bind hid sleep run emit]; [discriminate|].
    destruct (sigint E (S n)); cbn [bind hid sleep run emit].
    + intros H. injection H as <- _. reflexivity.
    + destruct (answer E (list byte) _ (S (S n))) as [data|e];
        cbn [bind hid sleep run emit].
      * destruct data as [|b data']; [discriminate|].
        destruct (decode_cases (firstn 8 (b :: data'))) as [[_ Hd]|[_ [c Hd]]];
          rewrite Hd; discriminate.
      * intros H. injection H as <- _ ->. reflexivity.
  - intros H. injection H as <- _ ->. reflexivity.
Qed.

(** What a measuring turn can come to: it returns with the handle kept and
    nothing closed, or returns with the handle forgotten after one close
    attempt, or is ended by an interrupt that reached it. *)
Lemma measure_step_cases (h : handle) (n : nat) :
  let '(t, dev', r) := run E (measure_step h) (Some h) n in
  (r = Returns tt /\ dev' = Some h /\ closes t = 0%nat
   /\ In 1000 (sleeps t))
  \/ (r = Returns tt /\ dev' = None /\ closes t = 1%nat
      /\ (In 1000 (sleeps t) \/ In 2000 (sleeps t)))
  \/ (r = Raises KeyboardInterrupt /\ existsb interrupt_event t = true).
Proof.
  pose proof (read_temperature_quiet E h (Some h) n) as Hq.
  destruct (run E (read_temperature h) (Some h) n) as [[t0 d0] r0] eqn:Hrt.
  destruct Hq as [-> Hq].
  destruct r0 as [[temp_c raw]|e].
  - rewrite (run_measure_step_returns E h _ _ n _ temp_c raw Hrt).
    destruct (sigint E (S (n + List.length t0))).
    + right. right. split; [reflexivity|].
      rewrite existsb_app. cbn. now rewrite orb_true_r.
    + left. repeat split.
      * rewrite closes_app, (closes_quiet _ Hq). reflexivity.
      * unfold sleeps. rewrite flat_map_app. apply in_or_app. right. now left.
  - unfold measure_step.
    rewrite (run_try_raises E _ _ _ _ _ _ _ (run_bind_raises E _ _ _ _ _ _ _ Hrt)).
    assert (Hrec : forall l ms, ms = 1000 \/ ms = 2000 ->
      let '(t, dev', r) :=
        (let '(t', dev2, r) :=
           run E (print l ;; close_quietly h ;; set_dev None ;; sleep ms)
               (Some h) (n + List.length t0) in
         (t0 ++ t', dev2, r)) in
      (r = Returns tt /\ dev' = Some h /\ closes t = 0%nat /\ In 1000 (sleeps t))
      \/ (r = Returns tt /\ dev' = None /\ closes t = 1%nat
          /\ (In 1000 (sleeps t) \/ In 2000 (sleeps t)))
      \/ (r = Raises KeyboardInterrupt /\ existsb interrupt_event t = true)).
    { intros l ms Hms. rewrite run_recovery_cases.
      set (rc := answer E unit (Close h) (S (n + List.length t0))).
      assert (Hgen :
        let i := sigint E (List.length (close_events h rc) + S (n + List.length t0)) in
        let t := t0 ++ EvPrint l :: close_events h rc ++ [EvSleep ms i] in
        (if i then Raises KeyboardInterrupt else Returns tt) = Returns tt
        /\ closes t = 1%nat /\ (In 1000 (sleeps t) \/ In 2000 (sleeps t))
        \/ (if i then Raises KeyboardInterrupt else @Returns unit tt)
           = Raises KeyboardInterrupt
           /\ existsb interrupt_event t = true).
      { cbv zeta. destruct (sigint E _).
        - right. split; [reflexivity|].
          rewrite existsb_app. cbn [existsb interrupt_event].
          rewrite existsb_app. cbn. now rewrite !orb_true_r.
        - left. split; [reflexivity|]. split.
          + rewrite closes_app, (closes_quiet _ Hq).
            change (EvPrint l :: close_events h rc ++ [EvSleep ms false])
              with ([EvPrint l] ++ close_events h rc ++ [EvSleep ms false]).
            now rewrite !closes_app, closes_close_events.
          + unfold sleeps. rewrite flat_map_app. cbn [flat_map app].
            rewrite flat_map_app. cbn [flat_map app].
            destruct Hms as [-> | ->]; [left|right];
              apply in_or_app; right; apply in_or_app; right; now left. }
      cbv zeta in Hgen.
      destruct rc as [u|e'] eqn:Hrc.
      - destruct Hgen as [(H1 & H2 & H3)|(H1 & H2)].
        + right. left. now repeat split.
        + right. right. now split.
      - destruct e'; try (destruct Hgen as [(H1 & H2 & H3)|(H1 & H2)];
          [right; left; now repeat split|right; right; now split]).
        right. right. split; [reflexivity|].
        rewrite existsb_app. cbn. now rewrite orb_true_r. }
    destruct e; cbn [is_OSError is_Exception].
    + apply (Hrec (ErrorRead (OSError msg)) 1000). now left.
    + apply (Hrec (ErrorUnexpected (ValueError msg)) 2000). now right.
    + apply (Hrec (ErrorUnexpected (OtherException msg)) 2000). now right.
    + right. right. split; [reflexivity|].
      apply (read_temperature_interrupt h _ _ n _ Hrt).
Qed.

End AnyTurn.

Section AnyConnect.

Variable E : env.

(** A measuring turn starts by writing the command frame to its handle. *)
Lemma measure_starts_with_write (h : handle) (dev : option handle) (n : nat) :
  exists t dev' r,
    run E (measure_step h) dev n
    = (EvHid (Write h command_frame) (answer E _ (Write h command_frame) n) :: t,
       dev', r).
Proof.
  unfold measure_step, read_temperature.
  change ([x00; x01; x80; x33; x01; x00; x00; x00; x00]
          ++ repeat x00 (64 - List.length [x00; x01; x80; x33; x01; x00; x00; x00; x00]))
    with command_frame.
  cbn [bind hid try_except run].
  destruct (run E _ dev (S n)) as [[t d] r]. now exists t, d, r.
Qed.

(** What a connecting turn can come to: no sensor and a sleep of two
    seconds; a handle, with no sleep; an interrupt; or an [Exception] that
    a call of the connect phase raised, with [dev] still empty. *)
Lemma connect_step_cases (n : nat) :
  let '(t, dev', r) := run E connect_step None n in
  closes t = 0%nat
  /\ ((r = Returns tt /\ dev' = None /\ sleeps t = [2000])
      \/ (r = Returns tt /\ (exists h, dev' = Some h) /\ sleeps t = [])
      \/ (r = Raises KeyboardInterrupt /\ dev' = None
          /\ existsb interrupt_event t = true)
      \/ (exists e, r = Raises e /\ is_Exception e = true /\ dev' = None
                    /\ In e (connect_failures t))).
Proof.
  unfold connect_step, open_temper. cbn [bind print hid run].
  destruct (answer E _ (Enumerate VENDOR_ID PRODUCT_ID) (S n)) as [devices|e];
    cbn [bind].
  - rewrite open_temper_scan_find.
    destruct (find _ devices) as [d|]; cbn.
    + destruct (answer E handle (OpenPath (path d)) _) as [h|e]; cbn.
      * destruct (answer E unit (SetNonblocking h false) _) as [u|e]; cbn.
        -- split; [reflexivity|]. right. left. repeat split. now exists h.
        -- split; [reflexivity|]. destruct e.
           all: try (right; right; right; eexists; repeat split; now left).
           right. right. left. now repeat split.
      * split; [reflexivity|]. destruct e.
        all: try (right; right; right; eexists; repeat split; now left).
        right. right. left. now repeat split.
    + destruct (sigint E _); cbn; (split; [reflexivity|]).
      * right. right. left. now repeat split.
      * left. now repeat split.
  - cbn. split; [reflexivity|]. destruct e.
    all: try (right; right; right; eexists; repeat split; now left).
    right. right. left. now repeat split.
Qed.

End AnyConnect.

(** X8: when the enumeration shows a sensor interface and its open and its
    switch to blocking mode return, the turn takes the handle without any
    sleep, and the next turn starts at once by writing the command frame to
    that handle. *)
Theorem connect_then_measure
  (E : env) (n : nat) (devices : list descriptor) (d : descriptor)
  (h : handle) (u : unit) :
  answer E _ (Enumerate VENDOR_ID PRODUCT_ID) (S n) = Returns devices ->
  find is_sensor_interface devices = Some d ->
  answer E _ (OpenPath (path d)) (S (S (S n))) = Returns h ->
  answer E _ (SetNonblocking h false) (S (S (S (S n)))) = Returns u ->
  let t := [EvPrint InfoSearching;
            EvHid (Enumerate VENDOR_ID PRODUCT_ID) (Returns devices);
            EvPrint (InfoUsingDevice d);
            EvHid (OpenPath (path d)) (Returns h);
            EvHid (SetNonblocking h false) (Returns u);
            EvPrint InfoOpened] in
  run E loop_body None n = (t, Some h, Returns tt)
  /\ sleeps t = []
  /\ forall turns, exists t' o,
       main_loop E (S (S turns)) None n
       = (t ++ EvHid (Write h command_frame)
                     (answer E _ (Write h command_frame) (n + 6))
            :: t', o).
Proof.
  intros Hen Hfind Hop Hnb t.
  pose proof (run_connect_step_found E n devices d Hen Hfind) as Hstep.
  rewrite Hop, Hnb in Hstep. fold t in Hstep.
  split; [exact Hstep|]. split; [reflexivity|].
  intros turns. rewrite (main_loop_goes_on E (S turns) _ _ n _ tt Hstep).
  cbn [main_loop]. rewrite run_loop_body_connected.
  destruct (measure_starts_with_write E h (Some h) (n + List.length t))
    as (t1 & d1 & r1 & ->).
  destruct r1 as [u1|e1].
  - destruct (main_loop E turns d1 _) as [t2 o]. now exists (t1 ++ t2), o.
  - destruct (run E (main_exit e1) d1 _) as [[t2 d2] r2].
    now exists (t1 ++ t2), (Left r2).
Qed.

Lemma connect_then_measure_witness :
  answer env_healthy _ (Enumerate VENDOR_ID PRODUCT_ID) 1 = Returns [keyboard; sensor]
  /\ find is_sensor_interface [keyboard; sensor] = Some sensor
  /\ answer env_healthy _ (OpenPath (path sensor)) 3 = Returns 1%nat
  /\ answer env_healthy _ (SetNonblocking 1%nat false) 4 = Returns tt
  /\ run env_healthy loop_body None 0
     = ([EvPrint InfoSearching;
         EvHid (Enumerate VENDOR_ID PRODUCT_ID) (Returns [keyboard; sensor]);
         EvPrint (InfoUsingDevice sensor);
         EvHid (OpenPath (path sensor)) (Returns 1%nat);
         EvHid (SetNonblocking 1%nat false) (Returns tt);
         EvPrint InfoOpened],
        Some 1%nat, Returns tt).
Proof.
  split; [reflexivity|]. split; [reflexivity|]. split; [reflexivity|].
  split; [reflexivity|].
  destruct (connect_then_measure env_healthy 0 [keyboard; sensor] sensor 1%nat tt
              eq_refl eq_refl eq_refl eq_refl) as [Hrun _].
  exact Hrun.
Defined.

(** X9: when the open returns a handle and the switch to blocking mode
    then raises an [Exception], [main] is left with that exception while
    [dev] is still empty: the handle just opened is out and no close
    attempt is ever made on it. *)
Theorem failed_mode_switch_leaks_handle
  (E : env) (turns n : nat) (devices : list descriptor) (d : descriptor)
  (h : handle) (e : exn) :
  answer E _ (Enumerate VENDOR_ID PRODUCT_ID) (S n) = Returns devices ->
  find is_sensor_interface devices = Some d ->
  answer E _ (OpenPath (path d)) (S (S (S n))) = Returns h ->
  answer E _ (SetNonblocking h false) (S (S (S (S n)))) = Raises e ->
  is_Exception e = true ->
  let t := [EvPrint InfoSearching;
            EvHid (Enumerate VENDOR_ID PRODUCT_ID) (Returns devices);
            EvPrint (InfoUsingDevice d);
            EvHid (OpenPath (path d)) (Returns h);
            EvHid (SetNonblocking h false) (Raises e)] in
  main_loop E (S turns) None n = (t, Left (Raises e))
  /\ closes t = 0%nat
  /\ held [] t = [h].
Proof.
  intros Hen Hfind Hop Hnb He t.
  pose proof (run_connect_step_found E n devices d Hen Hfind) as Hstep.
  rewrite Hop, Hnb in Hstep. fold t in Hstep.
  rewrite (main_loop_leaves E turns _ _ n _ e Hstep).
  split; [|split; reflexivity].
  unfold main_exit. destruct e; try discriminate; reflexivity.
Qed.

Lemma failed_mode_switch_leaks_handle_witness :
  answer env_setnb_fails _ (Enumerate VENDOR_ID PRODUCT_ID) 1 = Returns [sensor]
  /\ find is_sensor_interface [sensor] = Some sensor
  /\ answer env_setnb_fails _ (OpenPath (path sensor)) 3 = Returns 1%nat
  /\ answer env_setnb_fails _ (SetNonblocking 1%nat false) 4
     = Raises (OSError "set_nonblocking failed")
  /\ is_Exception (OSError "set_nonblocking failed") = true
  /\ snd (main env_setnb_fails 4) = Left (Raises (OSError "set_nonblocking failed"))
  /\ closes (fst (main env_setnb_fails 4)) = 0%nat.
Proof.
  split; [reflexivity|]. split; [reflexivity|]. split; [reflexivity|].
  split; [reflexivity|]. split; [reflexivity|].
  destruct (failed_mode_switch_leaks_handle env_setnb_fails 3 0 [sensor] sensor
              1%nat (OSError "set_nonblocking failed")
              eq_refl eq_refl eq_refl eq_refl eq_refl) as (Hm & Hc & _).
  unfold main. rewrite Hm. split; [reflexivity|exact Hc].
Defined.

(** ** Interrupts and the end of [main] *)

(** X10: when the exchange of a turn raises an [Exception] and an interrupt
    arrives during the close attempt of its clause, the clause stops there
    with [dev] still holding the handle; [main] then prints that it was
    stopped and attempts to close the same handle a second time before it
    returns. *)
Theorem interrupted_recovery_closes_twice
  (E : env) (turns : nat) (h : handle) (n : nat)
  (t0 : trace) (dev1 : option handle) (e : exn) :
  run E (read_temperature h) (Some h) n = (t0, dev1, Raises e) ->
  is_Exception e = true ->
  answer E _ (Close h) (S (n + List.length t0)) = Raises KeyboardInterrupt ->
  answer E _ (Close h) (S (S (S (n + List.length t0)))) <> Raises KeyboardInterrupt ->
  let rc := answer E _ (Close h) (S (S (S (n + List.length t0)))) in
  let t := t0 ++ [EvPrint (error_line e);
                  EvHid (Close h) (Raises KeyboardInterrupt);
                  EvPrint InfoInterrupted] ++ close_events h rc in
  main_loop E (S turns) (Some h) n = (t, Left (Returns tt))
  /\ closes t = 2%nat.
Proof.
  intros Hrt He Hc1 Hc2 rc t.
  pose proof (read_temperature_quiet E h (Some h) n) as Hq.
  rewrite Hrt in Hq. destruct Hq as [-> Hq].
  assert (Hstep : run E loop_body (Some h) n
                  = (t0 ++ [EvPrint (error_line e);
                            EvHid (Close h) (Raises KeyboardInterrupt)],
                     Some h, Raises KeyboardInterrupt)).
  { rewrite run_loop_body_connected. unfold measure_step.
    rewrite (run_try_raises E _ _ _ _ _ _ _ (run_bind_raises E _ _ _ _ _ _ _ Hrt)).
    unfold error_line.
    destruct e; try discriminate; cbn [is_OSError is_Exception];
      rewrite run_recovery_cases, Hc1; reflexivity. }
  rewrite (main_loop_leaves E turns _ _ n _ _ Hstep).
  rewrite run_main_exit_interrupt.
  rewrite length_app. cbn [List.length].
  replace (S (n + (List.length t0 + 2))) with (S (S (S (n + List.length t0)))) by lia.
  fold rc. split.
  - rewrite <- app_assoc. cbn [app].
    destruct rc as [u|e'] eqn:Hrc; [reflexivity|].
    destruct e'; try reflexivity. now elim Hc2.
  - unfold t. rewrite !closes_app, (closes_quiet _ Hq), closes_close_events.
    reflexivity.
Qed.

Lemma interrupted_recovery_closes_twice_witness :
  run (env_close_interrupted 2) (read_temperature 1%nat) (Some 1%nat) 0
  = ([EvHid (Write 1%nat command_frame) (Returns (-1))], Some 1%nat,
     Raises WriteError)
  /\ is_Exception WriteError = true
  /\ answer (env_close_interrupted 2) _ (Close 1%nat) 2 = Raises KeyboardInterrupt
  /\ answer (env_close_interrupted 2) _ (Close 1%nat) 4 <> Raises KeyboardInterrupt
  /\ main_loop (env_close_interrupted 2) 1 (Some 1%nat) 0
     = ([EvHid (Write 1%nat command_frame) (Returns (-1));
         EvPrint (ErrorRead WriteError);
         EvHid (Close 1%nat) (Raises KeyboardInterrupt);
         EvPrint InfoInterrupted;
         EvHid (Close 1%nat) (Returns tt);
         EvPrint InfoClosed],
        Left (Returns tt)).
Proof.
  assert (Hc : answer (env_close_interrupted 2) _ (Close 1%nat) 4
               <> Raises KeyboardInterrupt) by discriminate.
  split; [reflexivity|]. split; [reflexivity|]. split; [reflexivity|].
  split; [exact Hc|].
  destruct (interrupted_recovery_closes_twice (env_close_interrupted 2) 0 1%nat 0
              _ _ WriteError eq_refl eq_refl eq_refl Hc) as [Hm _].
  exact Hm.
Defined.






(** How a turn can raise: by an interrupt that reached it, or, with [dev]
    empty, by an [Exception] that a call of the connect phase raised. *)
Lemma loop_body_raises (E : env) (dev dev' : option handle) (n : nat)
  (t : trace) (e : exn) :
  run E loop_body dev n = (t, dev', Raises e) ->
  (e = KeyboardInterrupt /\ existsb interrupt_event t = true)
  \/ (is_Exception e = true /\ dev = None /\ dev' = None
      /\ In e (connect_failures t)).
Proof.
  destruct dev as [h|].
  - rewrite run_loop_body_connected. intros Hrun.
    pose proof (measure_step_cases E h n) as Hc. rewrite Hrun in Hc.
    destruct Hc as [(H & _)|[(H & _)|(H & Hi)]]; try discriminate.
    left. split; [congruence|exact Hi].
  - rewrite run_loop_body_disconnected. intros Hrun.
    pose proof (connect_step_cases E n) as Hc. rewrite Hrun in Hc.
    destruct Hc as (_ & [(H & _)|[(H & _)|[(H & _ & Hi)|(x & H & Hx & Hd & Hin)]]]);
      try discriminate.
    + left. split; [congruence|exact Hi].
    + right. injection H as ->. now repeat split.
Qed.




Lemma existsb_app_r {A : Type} (f : A -> bool) (l l' : list A) :
  existsb f l = true -> existsb f (l ++ l') = true.
Proof. intros H. now rewrite existsb_app, H. Qed.

Lemma connect_failures_app (t t' : trace) :
  connect_failures (t ++ t') = connect_failures t ++ connect_failures t'.
Proof. apply flat_map_app. Qed.

Lemma main_loop_left (E : env) (turns : nat) :
  forall dev n t r,
    main_loop E turns dev n = (t, Left r) ->
    match r with
    | Returns _ =>
        In (EvPrint InfoInterrupted) t /\ existsb interrupt_event t = true
    | Raises e => is_Exception e = true -> In e (connect_failures t)
    end.
Proof.
  induction turns as [|turns IH]; intros dev n t r; [discriminate|].
  cbn [main_loop].
  destruct (run E loop_body dev n) as [[t1 dev'] r1] eqn:Hstep.
  destruct r1 as [u|e].
  - specialize (IH dev' (n + List.length t1)%nat).
    destruct (main_loop E turns dev' (n + List.length t1)) as [t' o].
    intros H. injection H as <- ->. specialize (IH t' r eq_refl).
    destruct r as [u'|e'].
    + destruct IH as [Hin Hev]. split; [apply in_or_app; now right|].
      rewrite existsb_app, Hev. apply orb_true_r.
    + intros He. rewrite connect_failures_app. apply in_or_app. right.
      now apply IH.
  - pose proof (main_exit_result E e dev' (n + List.length t1)) as Hx.
    destruct (run E (main_exit e) dev' (n + List.length t1)) as [[t' d''] r'].
    intros H. injection H as <- <-.
    destruct (loop_body_raises E _ _ _ _ _ Hstep) as [(-> & Hi)|(He & _ & _ & Hin)].
    + destruct r' as [u'|x].
      * destruct Hx as [_ Hin]. split; [apply in_or_app; now right|].
        now apply existsb_app_r.
      * intros Hxe. now rewrite (Hx Hxe) in Hxe.
    + destruct r' as [u'|x].
      * destruct Hx as [-> _]. discriminate.
      * intros Hxe. rewrite (Hx Hxe). rewrite connect_failures_app.
        apply in_or_app. now left.
Qed.

(** X13: [main] returns normally only through its [except
    KeyboardInterrupt] clause: the run then shows the line that it was
    stopped by the user, and an interrupt that reached a sleep or a call. *)
Theorem main_returns_only_on_interrupt (E : env) (turns : nat) (t : trace) (u : unit) :
  main E turns = (t, Left (Returns u)) ->
  In (EvPrint InfoInterrupted) t /\ existsb interrupt_event t = true.
Proof. intros H. exact (main_loop_left E turns None 0 t (Returns u) H). Qed.

Lemma main_returns_only_on_interrupt_witness :
  main (env_absent_interrupt 0) 5
  = ([EvPrint InfoSearching;
      EvHid (Enumerate VENDOR_ID PRODUCT_ID) (Returns [keyboard]);
      EvPrint WarnNotFound;
      EvSleep 2000 true;
      EvPrint InfoInterrupted],
     Left (Returns tt))
  /\ In (EvPrint InfoInterrupted) (fst (main (env_absent_interrupt 0) 5)).
Proof.
  assert (H : main (env_absent_interrupt 0) 5
              = ([EvPrint InfoSearching;
                  EvHid (Enumerate VENDOR_ID PRODUCT_ID) (Returns [keyboard]);
                  EvPrint WarnNotFound;
                  EvSleep 2000 true;
                  EvPrint InfoInterrupted],
                 Left (Returns tt))) by (vm_compute; reflexivity).
  split; [exact H|].
  destruct (main_returns_only_on_interrupt _ _ _ _ H) as [Hin _].
  rewrite H. exact Hin.
Defined.



(** ** What the events of a run may be *)

Lemma events_ok_app (hs : list handle) (t t' : trace) :
  events_ok hs t -> events_ok (held hs t) t' -> events_ok hs (t ++ t').
Proof.
  revert hs. induction t as [|ev t IH]; intros hs Ht Ht'; [exact Ht'|].
  destruct Ht as [Hev Ht]. cbn [app events_ok]. split; [exact Hev|].
  apply IH; [exact Ht|exact Ht'].
Qed.

Lemma events_ok_point (t1 t2 : trace) (ev : event) :
  forall hs, events_ok hs (t1 ++ ev :: t2) -> event_ok (held hs t1) ev.
Proof.
  induction t1 as [|ev1 t1 IH]; intros hs H.
  - destruct H as [H _]. exact H.
  - destruct H as [_ H]. exact (IH _ H).
Qed.

(** Events that are in order whatever handles are out. *)
Lemma events_ok_always (t : trace) :
  Forall (fun ev => forall hs, event_ok hs ev) t -> forall hs, events_ok hs t.
Proof.
  induction 1 as [|ev t Hev _ IH]; intros hs; [exact I|].
  split; [apply Hev|apply IH].
Qed.

Lemma close_events_always (h : handle) (rc : result unit) :
  Forall (fun ev => forall hs, event_ok hs ev) (close_events h rc).
Proof. destruct rc; repeat constructor. Qed.

Section EventsOk.

Variable E : env.

Ltac always_ok :=
  repeat (apply Forall_cons; [intros ?; cbn; auto|]); try apply Forall_nil.

Lemma read_temperature_events_ok (h : handle) (dev : option handle) (n : nat) :
  events_ok [h] (fst (fst (run E (read_temperature h) dev n))).
Proof.
  unfold read_temperature.
  change ([x00; x01; x80; x33; x01; x00; x00; x00; x00]
          ++ repeat x00 (64 - List.length [x00; x01; x80; x33; x01; x00; x00; x00; x00]))
    with command_frame.
  cbn [bind hid run].
  destruct (answer E Z (Write h command_frame) n) as [v|e];
    cbn [bind hid sleep run emit fst]; [|cbn; auto].
  destruct (v <=? 0); cbn [bind hid sleep run emit fst]; [cbn; auto|].
  destruct (sigint E (S n)); cbn [bind hid sleep run emit fst]; [cbn; auto|].
  destruct (answer E (list byte) (Read h 64 1000) (S (S n))) as [data|e];
    cbn [bind hid sleep run emit fst]; [|cbn; auto 6].
  destruct data as [|b data']; [cbn; auto 6|].
  destruct (decode_temp_from_report (firstn 8 (b :: data')));
    cbn [bind lift run emit fst]; cbn; auto 6.
Qed.

Lemma measure_step_events_ok (h : handle) (n : nat) :
  events_ok [h] (fst (fst (run E (measure_step h) (Some h) n))).
Proof.
  pose proof (read_temperature_quiet E h (Some h) n) as Hq.
  pose proof (read_temperature_events_ok h (Some h) n) as Hok.
  destruct (run E (read_temperature h) (Some h) n) as [[t0 d0] r0] eqn:Hrt.
  destruct Hq as [-> Hq]. cbn [fst] in Hok.
  destruct r0 as [[temp_c raw]|e].
  - rewrite (run_measure_step_returns E h _ _ n _ temp_c raw Hrt). cbn [fst].
    apply events_ok_app; [exact Hok|].
    apply events_ok_always. always_ok.
  - unfold measure_step.
    rewrite (run_try_raises E _ _ _ _ _ _ _ (run_bind_raises E _ _ _ _ _ _ _ Hrt)).
    assert (Hrec : forall l ms, ms = 1000 \/ ms = 2000 ->
      events_ok [h]
        (fst (fst (let '(t', dev2, r) :=
                     run E (print l ;; close_quietly h ;; set_dev None ;; sleep ms)
                         (Some h) (n + List.length t0) in
                   (t0 ++ t', dev2, r))))).
    { intros l ms Hms. rewrite run_recovery_cases.
      destruct (answer E unit (Close h) (S (n + List.length t0))) as [u|e'].
      - cbn [fst]. apply events_ok_app; [exact Hok|].
        apply events_ok_always. apply Forall_cons; [intros ?; exact I|].
        apply Forall_app. split; [apply close_events_always|].
        apply Forall_cons; [intros ?; cbn; tauto|apply Forall_nil].
      - destruct e'; cbn [fst]; (apply events_ok_app; [exact Hok|]);
          apply events_ok_always;
          try (apply Forall_cons; [intros ?; exact I|];
               apply Forall_app; split; [apply close_events_always|];
               apply Forall_cons; [intros ?; cbn; tauto|apply Forall_nil]).
        always_ok. }
    destruct e; cbn [is_OSError is_Exception].
    + apply Hrec. now left.
    + apply Hrec. now right.
    + apply Hrec. now right.
    + exact Hok.
Qed.

Lemma connect_step_events_ok (n : nat) :
  events_ok [] (fst (fst (run E connect_step None n))).
Proof.
  unfold connect_step, open_temper. cbn [bind print hid run].
  destruct (answer E _ (Enumerate VENDOR_ID PRODUCT_ID) (S n)) as [devices|e];
    cbn [bind].
  - rewrite open_temper_scan_find.
    destruct (find _ devices) as [d|]; cbn.
    + destruct (answer E handle (OpenPath (path d)) _) as [h|e]; cbn.
      * destruct (answer E unit (SetNonblocking h false) _) as [u|e]; cbn;
          repeat split; auto.
      * repeat split; auto.
    + destruct (sigint E _); cbn; repeat split; auto.
  - cbn. repeat split; auto.
Qed.

Lemma main_exit_events_ok (e : exn) (dev : option handle) (n : nat) (hs : list handle) :
  events_ok hs (fst (fst (run E (main_exit e) dev n))).
Proof.
  apply events_ok_always. unfold main_exit, close_quietly.
  destruct e, dev as [h|]; cbn;
    try (destruct (answer E unit (Close h) _) as [u|e']; cbn; try destruct e'; cbn);
    always_ok.
Qed.

Lemma main_loop_events_ok (turns : nat) :
  forall dev n, events_ok (handles_of dev) (fst (main_loop E turns dev n)).
Proof.
  induction turns as [|turns IH]; intros dev n; [exact I|].
  pose proof (loop_body_ok E dev n) as Hstep.
  assert (Hok : events_ok (handles_of dev) (fst (fst (run E loop_body dev n)))).
  { destruct dev as [h|].
    - rewrite run_loop_body_connected. apply measure_step_events_ok.
    - rewrite run_loop_body_disconnected. apply connect_step_events_ok. }
  cbn [main_loop].
  destruct (run E loop_body dev n) as [[t dev'] r].
  destruct Hstep as [_ Hr]. cbn [fst] in Hok. destruct r as [u|e].
  - specialize (IH dev' (n + List.length t)%nat).
    destruct (main_loop E turns dev' (n + List.length t)) as [t' o].
    cbn [fst] in *. apply events_ok_app; [exact Hok|]. now rewrite Hr.
  - pose proof (main_exit_events_ok e dev' (n + List.length t)
                  (held (handles_of dev) t)) as Hx.
    destruct (run E (main_exit e) dev' (n + List.length t)) as [[t' d''] r'].
    cbn [fst] in *. apply events_ok_app; [exact Hok|exact Hx].
Qed.

End EventsOk.

(** X15: at each event of a run of [main]: a write carries the command
    frame and a read asks for 64 bytes within 1000 ms, and both go to the
    one handle that is out at that point, never to a handle that has had a
    close attempt; the switch to blocking mode is made on the handle just
    opened; an enumeration, for the fixed vendor and product id, and an
    open happen only while no handle is out; a sleep lasts 100, 1000 or
    2000 ms. *)
Theorem main_events_in_order
  (E : env) (turns : nat) (t1 t2 : trace) (ev : event) :
  fst (main E turns) = t1 ++ ev :: t2 ->
  event_ok (held [] t1) ev.
Proof.
  intros Ht. apply (events_ok_point t1 t2 ev). rewrite <- Ht.
  apply (main_loop_events_ok E turns None 0).
Qed.

Lemma main_events_in_order_witness :
  let t1 := [EvPrint InfoSearching;
             EvHid (Enumerate VENDOR_ID PRODUCT_ID) (Returns [sensor]);
             EvPrint (InfoUsingDevice sensor);
             EvHid (OpenPath (path sensor)) (Returns 1%nat);
             EvHid (SetNonblocking 1%nat false) (Returns tt);
             EvPrint InfoOpened] in
  let ev := EvHid (Write 1%nat command_frame) (Returns (-1)) in
  let t2 := [EvPrint (ErrorRead WriteError);
             EvHid (Close 1%nat) (Returns tt);
             EvPrint InfoClosed;
             EvSleep 1000 false] in
  fst (main env_write_fails 2) = t1 ++ ev :: t2
  /\ held [] t1 = [1%nat].
Proof.
  intros t1 ev t2.
  assert (Ht : fst (main env_write_fails 2) = t1 ++ ev :: t2)
    by (vm_compute; reflexivity).
  split; [exact Ht|].
  destruct (main_events_in_order env_write_fails 2 t1 t2 ev Ht) as [Hh _].
  exact Hh.
Defined.

(** X16: a turn that returns has slept at least one second, unless it is
    the turn that took a handle: the loop never spins without a pause,
    neither while searching nor while the device keeps failing. *)
Theorem returning_turn_sleeps_or_connects
  (E : env) (dev dev' : option handle) (n : nat) (t : trace) (u : unit) :
  run E loop_body dev n = (t, dev', Returns u) ->
  (exists ms, In ms (sleeps t) /\ 1000 <= ms)
  \/ (dev = None /\ exists h, dev' = Some h).
Proof.
  destruct dev as [h|].
  - rewrite run_loop_body_connected. intros Hrun.
    pose proof (measure_step_cases E h n) as Hc. rewrite Hrun in Hc.
    destruct Hc as [(_ & _ & _ & H)|[(_ & _ & _ & [H|H])|(H & _)]];
      try discriminate; left; eexists; (split; [exact H|lia]).
  - rewrite run_loop_body_disconnected. intros Hrun.
    pose proof (connect_step_cases E n) as Hc. rewrite Hrun in Hc.
    destruct Hc as (_ & [(_ & _ & H)|[(_ & H & _)|[(H & _)|(x & H & _)]]]);
      try discriminate.
    + left. exists 2000. rewrite H. split; [now left|lia].
    + right. split; [reflexivity|exact H].
Qed.

Lemma returning_turn_sleeps_or_connects_witness :
  run env_write_fails loop_body (Some 1%nat) 0
  = ([EvHid (Write 1%nat command_frame) (Returns (-1));
      EvPrint (ErrorRead WriteError);
      EvHid (Close 1%nat) (Returns tt);
      EvPrint InfoClosed;
      EvSleep 1000 false],
     None, Returns tt)
  /\ ((exists ms,
         In ms (sleeps [EvHid (Write 1%nat command_frame) (Returns (-1));
                        EvPrint (ErrorRead WriteError);
                        EvHid (Close 1%nat) (Returns tt);
                        EvPrint InfoClosed;
                        EvSleep 1000 false])
         /\ 1000 <= ms)
      \/ (Some 1%nat = None /\ exists h, @None handle = Some h)).
Proof.
  assert (H : run env_write_fails loop_body (Some 1%nat) 0
              = ([EvHid (Write 1%nat command_frame) (Returns (-1));
                  EvPrint (ErrorRead WriteError);
                  EvHid (Close 1%nat) (Returns tt);
                  EvPrint InfoClosed;
                  EvSleep 1000 false],
                 None, Returns tt)) by (vm_compute; reflexivity).
  split; [exact H|].
  exact (returning_turn_sleeps_or_connects _ _ _ _ _ _ H).
Defined.

(** ** The lines that report a reading *)

Section Lines.

Variable E : env.

Ltac sound_events :=
  repeat (apply Forall_cons; [exact I|]); try apply Forall_nil.

(** An exchange prints nothing; what it returns is a value with the report
    of four to eight bytes that decodes to it. *)
Lemma read_temperature_sound (h : handle) (dev : option handle) (n : nat) :
  let '(t, _, r) := run E (read_temperature h) dev n in
  Forall event_sound t
  /\ forall temp_c raw, r = Returns (temp_c, raw) ->
       decode_temp_from_report raw = Returns temp_c
       /\ (4 <= List.length raw <= 8)%nat.
Proof.
  unfold read_temperature. cbn [bind hid run].
  destruct (answer E Z _ n) as [v|e]; cbn [bind hid sleep run emit].
  2:{ split; [sound_events|discriminate]. }
  destruct (v <=? 0); cbn [bind hid sleep run emit].
  { split; [sound_events|discriminate]. }
  destruct (sigint E (S n)); cbn [bind hid sleep run emit].
  { split; [sound_events|discriminate]. }
  destruct (answer E (list byte) _ (S (S n))) as [data|e];
    cbn [bind hid sleep run emit].
  2:{ split; [sound_events|discriminate]. }
  destruct data as [|b data']; [split; [sound_events|discriminate]|].
  destruct (decode_cases (firstn 8 (b :: data'))) as [[_ Hd]|[Hl [c Hd]]];
    rewrite Hd; cbn [bind lift run emit].
  { split; [sound_events|discriminate]. }
  split; [sound_events|].
  intros temp_c raw H. injection H as <- <-. split; [exact Hd|].
  split; [exact Hl|].
  pose proof (length_firstn 8 (b :: data')) as Hf.
  etransitivity; [apply Nat.eq_le_incl; exact Hf|]. apply Nat.le_min_l.
Qed.

Lemma report_sound (temp_c : float) (raw : list byte) :
  decode_temp_from_report raw = Returns temp_c ->
  (4 <= List.length raw <= 8)%nat ->
  line_sound (report temp_c raw).
Proof.
  intros Hd Hl.
  change (report temp_c raw)
    with (if plausible temp_c then Reading temp_c raw else Implausible temp_c raw).
  destruct (plausible temp_c) eqn:Hp; cbn; now repeat split.
Qed.

Lemma close_events_sound (h : handle) (rc : result unit) :
  Forall event_sound (close_events h rc).
Proof. destruct rc; repeat constructor. Qed.

Lemma measure_step_sound (h : handle) (n : nat) :
  Forall event_sound (fst (fst (run E (measure_step h) (Some h) n))).
Proof.
  pose proof (read_temperature_sound h (Some h) n) as Hs.
  destruct (run E (read_temperature h) (Some h) n) as [[t0 d0] r0] eqn:Hrt.
  destruct Hs as [Ht0 Hret].
  destruct r0 as [[temp_c raw]|e].
  - rewrite (run_measure_step_returns E h _ _ n _ temp_c raw Hrt). cbn [fst].
    destruct (Hret temp_c raw eq_refl) as [Hd Hl].
    apply Forall_app. split; [exact Ht0|].
    apply Forall_cons; [exact (report_sound _ _ Hd Hl)|sound_events].
  - unfold measure_step.
    rewrite (run_try_raises E _ _ _ _ _ _ _ (run_bind_raises E _ _ _ _ _ _ _ Hrt)).
    assert (Hrec : forall e' ms,
      Forall event_sound
        (fst (fst (let '(t', dev2, r) :=
                     run E (print (error_line e') ;; close_quietly h ;;
                            set_dev None ;; sleep ms)
                         d0 (n + List.length t0) in
                   (t0 ++ t', dev2, r))))).
    { intros e' ms. rewrite run_recovery_cases.
      assert (Hl : line_sound (error_line e'))
        by (unfold error_line; now destruct (is_OSError e')).
      destruct (answer E unit (Close h) (S (n + List.length t0))) as [u|x];
        [|destruct x]; cbn [fst]; apply Forall_app; (split; [exact Ht0|]);
        try (apply Forall_cons; [exact Hl|]; apply Forall_app;
             split; [apply close_events_sound|sound_events]).
      apply Forall_cons; [exact Hl|sound_events]. }
    destruct e; cbn [is_OSError is_Exception].
    + apply (Hrec (OSError msg) 1000).
    + apply (Hrec (ValueError msg) 2000).
    + apply (Hrec (OtherException msg) 2000).
    + exact Ht0.
Qed.

Lemma connect_step_sound (n : nat) :
  Forall event_sound (fst (fst (run E connect_step None n))).
Proof.
  unfold connect_step, open_temper. cbn [bind print hid run].
  destruct (answer E _ (Enumerate VENDOR_ID PRODUCT_ID) (S n)) as [devices|e];
    cbn [bind].
  - rewrite open_temper_scan_find.
    destruct (find _ devices) as [d|]; cbn.
    + destruct (answer E handle (OpenPath (path d)) _) as [h|e]; cbn.
      * destruct (answer E unit (SetNonblocking h false) _) as [u|e]; cbn;
          sound_events.
      * sound_events.
    + destruct (sigint E _); cbn; sound_events.
  - cbn. sound_events.
Qed.

Lemma main_exit_sound (e : exn) (dev : option handle) (n : nat) :
  Forall event_sound (fst (fst (run E (main_exit e) dev n))).
Proof.
  unfold main_exit, close_quietly.
  destruct e, dev as [h|]; cbn;
    try (destruct (answer E unit (Close h) _) as [u|e']; cbn; try destruct e'; cbn);
    sound_events.
Qed.

Lemma main_loop_sound (turns : nat) :
  forall dev n, Forall event_sound (fst (main_loop E turns dev n)).
Proof.
  induction turns as [|turns IH]; intros dev n; [apply Forall_nil|].
  assert (Hs : Forall event_sound (fst (fst (run E loop_body dev n)))).
  { destruct dev as [h|].
    - rewrite run_loop_body_connected. apply measure_step_sound.
    - rewrite run_loop_body_disconnected. apply connect_step_sound. }
  cbn [main_loop].
  destruct (run E loop_body dev n) as [[t dev'] r]. cbn [fst] in Hs.
  destruct r as [u|e].
  - specialize (IH dev' (n + List.length t)%nat).
    destruct (main_loop E turns dev' (n + List.length t)) as [t' o].
    cbn [fst] in *. apply Forall_app. now split.
  - pose proof (main_exit_sound e dev' (n + List.length t)) as Hx.
    destruct (run E (main_exit e) dev' (n + List.length t)) as [[t' d''] r'].
    cbn [fst] in *. apply Forall_app. now split.
Qed.

End Lines.

(** X17: every line of a run of [main] that reports a reading shows the
    value that the raw report beside it decodes to, with a report of four
    to eight bytes; it is the warning line exactly when that value is
    outside [-40, 125].  No reading is printed from a report that was not
    decoded. *)
Theorem printed_readings_are_decoded (E : env) (turns : nat) (l : line) :
  In (EvPrint l) (fst (main E turns)) -> line_sound l.
Proof.
  intros Hin.
  pose proof (main_loop_sound E turns None 0) as Hs.
  rewrite Forall_forall in Hs. exact (Hs _ Hin).
Qed.

Lemma printed_readings_are_decoded_witness :
  In (EvPrint (Implausible 127 reply_127)) (fst (main env_hot 2))
  /\ decode_temp_from_report reply_127 = Returns 127%float
  /\ plausible 127 = false.
Proof.
  assert (Hin : In (EvPrint (Implausible 127 reply_127)) (fst (main env_hot 2))).
  { vm_compute. do 9 right. now left. }
  split; [exact Hin|].
  destruct (printed_readings_are_decoded env_hot 2 _ Hin) as (Hd & _ & Hp).
  split; [exact Hd|exact Hp].
Defined.
